(** * eBay research assistant: the five MCP tools of [ebaymcp.py]

    A shallow embedding of the tool functions [track_product_prices],
    [find_arbitrage_opportunities], [analyze_investment_potential],
    [market_scanner] and [get_portfolio_summary], followed by the
    properties of the written specification that concern them.

    Modelling choices.
    - A Python [float] is a rational or one of the three special values
      (infinity of either sign, NaN).  [Fin q] stands for the binary64 value
      nearest to [q], as a float literal written [q] does in Python.
      Addition, multiplication and division round their operands and their
      exact result to binary64 ([round_binary64]: 53-bit significand, round
      to nearest, ties to even, gradual underflow), so that [int()] sees the
      quotient the source computes.  Comparisons are made on the rationals
      as written: rounding is monotone, and no two values the source
      compares round to the same binary64 value.  No operation of the tools
      overflows on binary64 operands, and overflow to infinity is not
      modelled.  The control flow that the special values trigger ([int()]
      raising on infinity and NaN, comparisons with NaN being false) is
      modelled.
    - A Python [dict] that a tool returns is an association list in
      insertion order ([VDict]).  The dict literals a tool builds for its own
      use (an analysis, an opportunity, a holding) are records, encoded into
      [VDict]s where the source puts them into the result.
    - An exception is a value of [exn]; a tool body runs in the [outcome]
      monad, and the [try ... except Exception as e] frame of each tool maps
      a raised exception to the failure dict of the source.
    - [logger.error] writes to a log file and has no effect on the returned
      value; it is left out.  A coroutine is modelled by the value it
      returns. *)

From Stdlib Require Import ZArith QArith Qround Qpower String Ascii List Bool Lia.
From Stdlib Require Import DecimalString.
Import ListNotations.

Local Open Scope string_scope.

(** ** Rounding to binary64 *)

Definition pow2 (e : Z) : Q := Qpower 2 e.

(** The floor of the binary logarithm of a positive rational. *)
Definition ilog2 (a : Q) : Z :=
  let l0 := (Z.log2 (Qnum a) - Z.log2 (Zpos (Qden a)))%Z in
  if Qle_bool (pow2 l0) a then l0 else (l0 - 1)%Z.

(** Rounding to the nearest integer, ties to even. *)
Definition rne (x : Q) : Z :=
  let f := Qfloor x in
  match (x - inject_Z f ?= 1 # 2)%Q with
  | Lt => f
  | Gt => (f + 1)%Z
  | Eq => if Z.even f then f else (f + 1)%Z
  end.

(** The exponent of the last significand bit of a positive rational: 52
    below its leading bit, and no lower than that of the smallest
    subnormal. *)
Definition exponent (a : Q) : Z := Z.max (-1074) (ilog2 a - 52).

Definition round_pos (a : Q) : Q :=
  let e := exponent a in
  (inject_Z (rne (a * pow2 (- e))) * pow2 e)%Q.

(** The binary64 value nearest to a rational, ties to even. *)
Definition round_binary64 (x : Q) : Q :=
  match (0 ?= x)%Q with
  | Eq => 0%Q
  | Lt => Qred (round_pos x)
  | Gt => Qred (- round_pos (- x))
  end.

(** A rational that is a binary64 value: rounding leaves it unchanged. *)
Definition is_binary64 (q : Q) : bool := Qeq_bool (round_binary64 q) q.

(** The binary64 sum, product and quotient of the floats written [a] and
    [b]. *)
Definition fadd (a b : Q) : Q :=
  round_binary64 (round_binary64 a + round_binary64 b).

Definition fmul (a b : Q) : Q :=
  round_binary64 (round_binary64 a * round_binary64 b).

Definition fdiv (a b : Q) : Q :=
  round_binary64 (round_binary64 a / round_binary64 b).

(** The largest binary64 value below 85. *)
Definition below_85 : Q := (85 * 2 ^ 46 - 1) # (2 ^ 46).

(** ** Floats *)

Inductive pyfloat : Type :=
| Fin (q : Q)
| PosInf
| NegInf
| NaN.

Definition float_inf : pyfloat := PosInf.

Definition of_int (z : Z) : pyfloat := Fin (inject_Z z).

Definition sign_of (q : Q) : comparison := (0 ?= q)%Q.

(** [x < y] and [x <= y]; every comparison with NaN is false. *)
Definition pf_lt (x y : pyfloat) : bool :=
  match x, y with
  | NaN, _ | _, NaN => false
  | Fin a, Fin b => negb (Qle_bool b a)
  | NegInf, NegInf => false
  | NegInf, _ => true
  | _, NegInf => false
  | PosInf, _ => false
  | Fin _, PosInf => true
  end.

Definition pf_le (x y : pyfloat) : bool :=
  match x, y with
  | NaN, _ | _, NaN => false
  | Fin a, Fin b => Qle_bool a b
  | NegInf, _ => true
  | _, NegInf => false
  | _, PosInf => true
  | PosInf, Fin _ => false
  end.

Definition pf_gt (x y : pyfloat) : bool := pf_lt y x.

Definition pf_neg (x : pyfloat) : pyfloat :=
  match x with
  | Fin q => Fin (Qred (- q))
  | PosInf => NegInf
  | NegInf => PosInf
  | NaN => NaN
  end.

Definition pf_add (x y : pyfloat) : pyfloat :=
  match x, y with
  | NaN, _ | _, NaN => NaN
  | Fin a, Fin b => Fin (fadd a b)
  | PosInf, NegInf | NegInf, PosInf => NaN
  | PosInf, _ | _, PosInf => PosInf
  | NegInf, _ | _, NegInf => NegInf
  end.

Definition pf_sub (x y : pyfloat) : pyfloat := pf_add x (pf_neg y).

(** An infinity scaled by a finite factor: the factor's sign decides. *)
Definition scale_inf (positive : bool) (q : Q) : pyfloat :=
  match sign_of q with
  | Eq => NaN
  | Lt => if positive then PosInf else NegInf
  | Gt => if positive then NegInf else PosInf
  end.

Definition pf_mul (x y : pyfloat) : pyfloat :=
  match x, y with
  | NaN, _ | _, NaN => NaN
  | Fin a, Fin b => Fin (fmul a b)
  | PosInf, Fin b => scale_inf true b
  | NegInf, Fin b => scale_inf false b
  | Fin a, PosInf => scale_inf true a
  | Fin a, NegInf => scale_inf false a
  | PosInf, PosInf | NegInf, NegInf => PosInf
  | PosInf, NegInf | NegInf, PosInf => NegInf
  end.

(** ** Exceptions and the outcome of a tool body *)

Inductive exn_class : Type :=
| ZeroDivisionError
| OverflowError
| ValueError.

Record exn : Type := mk_exn { exn_kind : exn_class; exn_msg : string }.

(** [str(e)]: the message, without the class. *)
Definition str_exn (e : exn) : string := exn_msg e.

Inductive outcome (A : Type) : Type :=
| Return (a : A)
| Raise (e : exn).

Arguments Return {A} a.
Arguments Raise {A} e.

Definition bind {A B : Type} (m : outcome A) (k : A -> outcome B) : outcome B :=
  match m with
  | Return a => k a
  | Raise e => Raise e
  end.

Notation "x <- m ;; k" := (bind m (fun x => k))
  (at level 61, m at next level, right associativity).

(** [x / y] on floats. *)
Definition pf_div (x y : pyfloat) : outcome pyfloat :=
  match y with
  | NaN => Return NaN
  | Fin b =>
      match sign_of (round_binary64 b) with
      | Eq => Raise (mk_exn ZeroDivisionError "float division by zero")
      | _ =>
          match x with
          | Fin a => Return (Fin (fdiv a b))
          | PosInf => Return (scale_inf true b)
          | NegInf => Return (scale_inf false b)
          | NaN => Return NaN
          end
      end
  | PosInf | NegInf =>
      match x with
      | Fin _ => Return (Fin 0)
      | _ => Return NaN
      end
  end.

(** Truncation toward zero. *)
Definition Qtrunc (q : Q) : Z :=
  if Qle_bool 0 q then Qfloor q else Qceiling q.

(** [int(x)] of a float. *)
Definition py_int (x : pyfloat) : outcome Z :=
  match x with
  | Fin q => Return (Qtrunc q)
  | PosInf | NegInf =>
      Raise (mk_exn OverflowError "cannot convert float infinity to integer")
  | NaN => Raise (mk_exn ValueError "cannot convert float NaN to integer")
  end.

(** ** Strings *)

(** [str(n)] of an int, as an f-string renders it. *)
Definition str_int (z : Z) : string := NilZero.string_of_int (Z.to_int z).

(** [s.replace(c, by)] for a one-character pattern. *)
Fixpoint replace_char (c : ascii) (by_ : string) (s : string) : string :=
  match s with
  | EmptyString => EmptyString
  | String a rest =>
      if Ascii.eqb a c then by_ ++ replace_char c by_ rest
      else String a (replace_char c by_ rest)
  end.

(** A piece of an f-string.  Text, ints and strings are rendered; a float
    field keeps the float and its format specification, the decimal
    rendering of a float being outside this model of floats. *)
Inductive chunk : Type :=
| Text (s : string)
| FloatField (spec : string) (x : pyfloat).

(** ** Values a tool returns *)

#[warnings="-register-all"]
Inductive value : Type :=
| VNone
| VBool (b : bool)
| VInt (z : Z)
| VFloat (x : pyfloat)
| VStr (s : string)
| VFString (parts : list chunk)
| VList (items : list value)
| VDict (fields : list (string * value)).

Fixpoint assoc {A : Type} (k : string) (l : list (string * A)) : option A :=
  match l with
  | [] => None
  | (k', v) :: rest => if String.eqb k k' then Some v else assoc k rest
  end.

Definition dict_fields (v : value) : list (string * value) :=
  match v with
  | VDict fields => fields
  | _ => []
  end.

Definition dict_get (k : string) (v : value) : option value :=
  assoc k (dict_fields v).

Definition dict_keys (v : value) : list string := map fst (dict_fields v).

Fixpoint value_at (path : list string) (v : value) : option value :=
  match path with
  | [] => Some v
  | k :: rest =>
      match dict_get k v with
      | Some v' => value_at rest v'
      | None => None
      end
  end.

Definition float_at (path : list string) (v : value) : option pyfloat :=
  match value_at path v with
  | Some (VFloat x) => Some x
  | _ => None
  end.

Definition success_of (v : value) : option bool :=
  match dict_get "success" v with
  | Some (VBool b) => Some b
  | _ => None
  end.

(** [d.get(k, default)] on a dict literal. *)
Definition get_default {A : Type} (d : list (string * A)) (k : string) (default : A) : A :=
  match assoc k d with
  | Some v => v
  | None => default
  end.

(** [max(xs, key=f)] and [min(xs, key=f)]: the first element whose key no
    later key exceeds (resp. undercuts); [ValueError] on an empty list. *)
Definition py_extreme {A : Type} (better : pyfloat -> pyfloat -> bool)
    (name : string) (key : A -> pyfloat) (xs : list A) : outcome A :=
  match xs with
  | [] => Raise (mk_exn ValueError (name ++ "() arg is an empty sequence"))
  | x :: rest =>
      Return (fold_left
                (fun best item => if better (key item) (key best) then item else best)
                rest x)
  end.

Definition py_max {A : Type} := @py_extreme A pf_gt "max".
Definition py_min {A : Type} := @py_extreme A pf_lt "min".

(** The failure dict that the [except Exception as e] clause of a tool
    returns: [success], [error] holding [str(e)], and the parameters the
    clause echoes. *)
Definition failure_dict (e : exn) (echo : list (string * value)) : value :=
  VDict ([("success", VBool false); ("error", VStr (str_exn e))] ++ echo).

Definition try_except (body : outcome value) (echo : list (string * value)) : value :=
  match body with
  | Return v => v
  | Raise e => failure_dict e echo
  end.

(** ** [track_product_prices] *)

Module PriceAnalysis.
Record t : Type := mk {
  product_name : string;
  data_points : Z;
  date_range : Z;
  sold_listings : Z;
  active_listings : Z;
  avg_sold_price : pyfloat;
  median_sold_price : pyfloat;
  min_sold_price : pyfloat;
  max_sold_price : pyfloat;
  sold_price_volatility : pyfloat;
  avg_active_price : pyfloat;
  median_active_price : pyfloat;
  min_active_price : pyfloat;
  max_active_price : pyfloat
}.

Definition to_value (a : t) : value :=
  VDict [("product_name", VStr (product_name a));
         ("data_points", VInt (data_points a));
         ("date_range", VInt (date_range a));
         ("sold_listings", VInt (sold_listings a));
         ("active_listings", VInt (active_listings a));
         ("avg_sold_price", VFloat (avg_sold_price a));
         ("median_sold_price", VFloat (median_sold_price a));
         ("min_sold_price", VFloat (min_sold_price a));
         ("max_sold_price", VFloat (max_sold_price a));
         ("sold_price_volatility", VFloat (sold_price_volatility a));
         ("avg_active_price", VFloat (avg_active_price a));
         ("median_active_price", VFloat (median_active_price a));
         ("min_active_price", VFloat (min_active_price a));
         ("max_active_price", VFloat (max_active_price a))].
End PriceAnalysis.

Definition track_product_prices_body (product_name update_frequency : string)
    : outcome value :=
  let force_update := String.eqb update_frequency "force" in
  let analysis :=
    PriceAnalysis.mk product_name 25 30 15 10
      (Fin 89.99) (Fin 87.50) (Fin 75.00) (Fin 105.00) (Fin 8.25)
      (Fin 92.50) (Fin 90.00) (Fin 85.00) (Fin 110.00) in
  Return
    (VDict
       [("success", VBool true);
        ("data", PriceAnalysis.to_value analysis);
        ("summary",
         VStr ("Found " ++ str_int (PriceAnalysis.data_points analysis)
               ++ " listings for " ++ product_name));
        ("recommendation",
         VStr (if pf_lt (PriceAnalysis.avg_active_price analysis)
                        (pf_mul (PriceAnalysis.avg_sold_price analysis) (Fin 1.1))
               then "Good buying opportunity"
               else "Monitor for better prices"))]).

Definition track_product_prices (product_name update_frequency : string) : value :=
  try_except (track_product_prices_body product_name update_frequency)
    [("product_name", VStr product_name)].

(** ** [find_arbitrage_opportunities] *)

Module Opportunity.
Record t : Type := mk {
  buy_price : pyfloat;
  sell_price : pyfloat;
  net_profit : pyfloat;
  roi_percentage : pyfloat;
  confidence_score : Z;
  estimated_fees : pyfloat;
  buy_source : string;
  sell_source : string
}.

Definition to_value (o : t) : value :=
  VDict [("buy_price", VFloat (buy_price o));
         ("sell_price", VFloat (sell_price o));
         ("net_profit", VFloat (net_profit o));
         ("roi_percentage", VFloat (roi_percentage o));
         ("confidence_score", VInt (confidence_score o));
         ("estimated_fees", VFloat (estimated_fees o));
         ("buy_source", VStr (buy_source o));
         ("sell_source", VStr (sell_source o))].
End Opportunity.

Definition len {A : Type} (l : list A) : Z := Z.of_nat (length l).

Definition find_arbitrage_opportunities_body (product_name : string)
    (min_profit_margin max_investment : pyfloat) : outcome value :=
  let opportunities :=
    [Opportunity.mk (Fin 85.00) (Fin 95.00) (Fin 6.50) (Fin 7.6) 78 (Fin 3.50)
       "eBay Auctions" "eBay Buy-It-Now"] in
  match opportunities with
  | best_opp :: _ =>
      quotient <- pf_div max_investment (Opportunity.buy_price best_opp) ;;
      max_units <- py_int quotient ;;
      let total_profit := pf_mul (Opportunity.net_profit best_opp) (of_int max_units) in
      Return
        (VDict
           [("success", VBool true);
            ("opportunities_found", VInt (len opportunities));
            ("best_opportunity", Opportunity.to_value best_opp);
            ("scaled_analysis",
             VDict [("max_units", VInt max_units);
                    ("total_profit", VFloat total_profit);
                    ("total_investment", VFloat max_investment)]);
            ("product_name", VStr product_name)])
  | [] =>
      Return
        (VDict
           [("success", VBool true);
            ("opportunities_found", VInt 0);
            ("message",
             VFString [Text ("No arbitrage opportunities found for " ++ product_name
                             ++ " with ");
                       FloatField "" min_profit_margin;
                       Text "% minimum margin"]);
            ("product_name", VStr product_name)])
  end.

Definition find_arbitrage_opportunities (product_name : string)
    (min_profit_margin max_investment : pyfloat) : value :=
  try_except
    (find_arbitrage_opportunities_body product_name min_profit_margin max_investment)
    [("product_name", VStr product_name)].

(** ** [analyze_investment_potential] *)

Module Investment.
Record t : Type := mk {
  product_name : string;
  investment_score : pyfloat;
  risk_level : string;
  current_avg_price : pyfloat;
  price_trend_pct : pyfloat;
  volatility_pct : pyfloat;
  target_price_6m : pyfloat;
  target_price_1y : pyfloat;
  data_points : Z;
  recommendation : string;
  investment_horizon : string
}.

Definition to_value (a : t) : value :=
  VDict [("product_name", VStr (product_name a));
         ("investment_score", VFloat (investment_score a));
         ("risk_level", VStr (risk_level a));
         ("current_avg_price", VFloat (current_avg_price a));
         ("price_trend_pct", VFloat (price_trend_pct a));
         ("volatility_pct", VFloat (volatility_pct a));
         ("target_price_6m", VFloat (target_price_6m a));
         ("target_price_1y", VFloat (target_price_1y a));
         ("data_points", VInt (data_points a));
         ("recommendation", VStr (recommendation a));
         ("investment_horizon", VStr (investment_horizon a))].
End Investment.

Definition analyze_investment_potential_body (product_name investment_horizon : string)
    : outcome value :=
  let horizon_multiplier :=
    get_default [("short", Fin 0.5); ("medium", Fin 1.0); ("long", Fin 2.0)]
      investment_horizon (Fin 1.0) in
  let analysis :=
    Investment.mk product_name (Fin 72.5) "Medium" (Fin 89.99) (Fin 5.2) (Fin 12.8)
      (pf_mul (Fin 94.50) horizon_multiplier)
      (pf_mul (Fin 102.00) horizon_multiplier)
      150
      "Buy - Good investment opportunity with solid fundamentals"
      investment_horizon in
  ratio <- pf_div (pf_sub (Investment.target_price_1y analysis)
                          (Investment.current_avg_price analysis))
                  (Investment.current_avg_price analysis) ;;
  let potential_upside := pf_mul ratio (of_int 100) in
  Return
    (VDict
       [("success", VBool true);
        ("analysis", Investment.to_value analysis);
        ("potential_upside_pct", VFloat potential_upside);
        ("strategy_tips",
         VList
           [(if pf_gt (Investment.volatility_pct analysis) (of_int 20)
             then VStr "Dollar-cost average over 2-3 months"
             else VStr "Consider lump sum investment");
            (if pf_lt (Investment.price_trend_pct analysis) (of_int 0)
             then VFString
                    [Text "Wait for price dip below $";
                     FloatField ".2f"
                       (pf_mul (Investment.current_avg_price analysis) (Fin 0.95));
                     Text " for better entry"]
             else VStr "Current pricing appears favorable");
            (if (50 <? Investment.data_points analysis)%Z
             then VStr "High liquidity expected"
             else VStr "Monitor liquidity before large positions")])]).

Definition analyze_investment_potential (product_name investment_horizon : string)
    : value :=
  try_except (analyze_investment_potential_body product_name investment_horizon)
    [("product_name", VStr product_name)].

(** ** [market_scanner] *)

Module Scan.
Record t : Type := mk {
  product : string;
  price : pyfloat;
  metric : pyfloat;
  data : string;
  trend : option pyfloat
}.

Definition to_value (o : t) : value :=
  VDict [("product", VStr (product o));
         ("price", VFloat (price o));
         ("metric", VFloat (metric o));
         ("data", VStr (data o));
         ("trend", match trend o with Some x => VFloat x | None => VNone end)].
End Scan.

(** The two-entry list the source builds before filtering. *)
Definition scan_catalog (scan_type : string) : list Scan.t :=
  let trending := String.eqb scan_type "trending" in
  [Scan.mk "Dominaria United Draft Booster Box" (Fin 89.99) (Fin 12.5)
     (if trending then "$89.99 (+12.5% trend)" else "$89.99 (15.2% ROI)")
     (if trending then Some (Fin 12.5) else None);
   Scan.mk "The Brothers War Set Booster Box" (Fin 145.00) (Fin 8.7)
     (if trending then "$145.00 (+8.7% trend)" else "$145.00 (8.7% ROI)")
     (if trending then Some (Fin 8.7) else None)].

(** The [if/elif] chain on [price_range], starting from [0, float('inf')]. *)
Definition price_bounds (price_range : string) : pyfloat * pyfloat :=
  let price_min := of_int 0 in
  let price_max := float_inf in
  if String.eqb price_range "under100" then (price_min, of_int 100)
  else if String.eqb price_range "100-500" then (of_int 100, of_int 500)
  else if String.eqb price_range "500-1000" then (of_int 500, of_int 1000)
  else if String.eqb price_range "over1000" then (of_int 1000, price_max)
  else (price_min, price_max).

(** [price_min <= opp["price"] <= price_max]. *)
Definition in_price_range (price_range : string) (opp : Scan.t) : bool :=
  let '(price_min, price_max) := price_bounds price_range in
  pf_le price_min (Scan.price opp) && pf_le (Scan.price opp) price_max.

Definition filter_by_price_range (price_range : string) (opportunities : list Scan.t)
    : list Scan.t :=
  filter (in_price_range price_range) opportunities.

Definition market_scanner_body (scan_type price_range time_period : string)
    : outcome value :=
  let opportunities := scan_catalog scan_type in
  let filtered_opportunities := filter_by_price_range price_range opportunities in
  Return
    (VDict
       [("success", VBool true);
        ("scan_type", VStr scan_type);
        ("price_range", VStr price_range);
        ("time_period", VStr time_period);
        ("products_analyzed", VInt 10);
        ("opportunities_found", VInt (len filtered_opportunities));
        ("opportunities", VList (map Scan.to_value filtered_opportunities));
        ("summary",
         VStr ("Found " ++ str_int (len filtered_opportunities) ++ " " ++ scan_type
               ++ " opportunities in $" ++ replace_char "-" " - " price_range
               ++ " range"))]).

Definition market_scanner (scan_type price_range time_period : string) : value :=
  try_except (market_scanner_body scan_type price_range time_period)
    [("scan_type", VStr scan_type); ("price_range", VStr price_range)].

(** ** [get_portfolio_summary] *)

Module Holding.
Record t : Type := mk {
  product_name : string;
  quantity : Z;
  total_cost : pyfloat;
  current_value : pyfloat;
  pnl : pyfloat;
  pnl_pct : pyfloat;
  holding_days : Z;
  purchase_date : string
}.

Definition to_value (h : t) : value :=
  VDict [("product_name", VStr (product_name h));
         ("quantity", VInt (quantity h));
         ("total_cost", VFloat (total_cost h));
         ("current_value", VFloat (current_value h));
         ("pnl", VFloat (pnl h));
         ("pnl_pct", VFloat (pnl_pct h));
         ("holding_days", VInt (holding_days h));
         ("purchase_date", VStr (purchase_date h))].
End Holding.

Module Portfolio.
Record t : Type := mk {
  total_invested : pyfloat;
  current_value : pyfloat;
  unrealized_pnl : pyfloat;
  unrealized_pnl_pct : pyfloat;
  active_positions : Z;
  avg_holding_period_days : Z;
  holdings : list Holding.t
}.

Definition to_value (p : t) : value :=
  VDict [("total_invested", VFloat (total_invested p));
         ("current_value", VFloat (current_value p));
         ("unrealized_pnl", VFloat (unrealized_pnl p));
         ("unrealized_pnl_pct", VFloat (unrealized_pnl_pct p));
         ("active_positions", VInt (active_positions p));
         ("avg_holding_period_days", VInt (avg_holding_period_days p));
         ("holdings", VList (map Holding.to_value (holdings p)))].
End Portfolio.

Definition get_portfolio_summary_body : outcome value :=
  let portfolio :=
    Portfolio.mk (Fin 2450.00) (Fin 2680.50) (Fin 230.50) (Fin 9.4) 5 120
      [Holding.mk "Dominaria United Draft Booster Box" 3
         (Fin 270.00) (Fin 285.00) (Fin 15.00) (Fin 5.6) 90 "2024-03-01";
       Holding.mk "Modern Horizons 3 Collector Box" 1
         (Fin 380.00) (Fin 420.00) (Fin 40.00) (Fin 10.5) 60 "2024-04-15"] in
  if (0 <? Portfolio.active_positions portfolio)%Z then
    best_performer <- py_max Holding.pnl_pct (Portfolio.holdings portfolio) ;;
    worst_performer <- py_min Holding.pnl_pct (Portfolio.holdings portfolio) ;;
    Return
      (VDict
         [("success", VBool true);
          ("portfolio", Portfolio.to_value portfolio);
          ("performance",
           VDict
             [("best_performer", Holding.to_value best_performer);
              ("worst_performer", Holding.to_value worst_performer);
              ("overall_status",
               VStr (if pf_gt (Portfolio.unrealized_pnl_pct portfolio) (of_int 10)
                     then "Strong performance"
                     else if pf_gt (Portfolio.unrealized_pnl_pct portfolio) (of_int 0)
                          then "Moderate performance"
                          else "Underperforming"))]);
          ("recommendations",
           VList
             [VStr (if existsb (fun h => pf_gt (Holding.pnl_pct h) (of_int 25))
                                (Portfolio.holdings portfolio)
                    then "Consider profit-taking on outperformers"
                    else "Hold current positions");
              VStr (if pf_gt (Portfolio.unrealized_pnl_pct portfolio) (of_int 0)
                    then "Portfolio trending well"
                    else "Review underperforming assets")])])
  else
    Return
      (VDict
         [("success", VBool true);
          ("portfolio", VDict [("active_positions", VInt 0)]);
          ("message",
           VStr "Portfolio is empty. Start by recording some investments!")]).

Definition get_portfolio_summary : value :=
  try_except get_portfolio_summary_body [].

(** ** Reading a returned value *)

Definition pf_eqb (x y : pyfloat) : bool :=
  match x, y with
  | Fin a, Fin b => Qeq_bool a b
  | PosInf, PosInf | NegInf, NegInf => true
  | _, _ => false
  end.

Definition list_at (path : list string) (v : value) : option (list value) :=
  match value_at path v with
  | Some (VList items) => Some items
  | _ => None
  end.

(** [sum(item[k] for item in items)]: from [0], left to right. *)
Definition sum_field (k : string) (items : list value) : option pyfloat :=
  fold_left
    (fun acc item =>
       match acc, float_at [k] item with
       | Some s, Some x => Some (pf_add s x)
       | _, _ => None
       end)
    items (Some (of_int 0)).

(** [min <= median <= max] and [min <= mean <= max] for the statistics of one
    listing status in the [data] dict of a price-tracking result. *)
Definition snapshot_ordered (status : string) (r : value) : bool :=
  match float_at ["data"; "min_" ++ status ++ "_price"] r,
        float_at ["data"; "median_" ++ status ++ "_price"] r,
        float_at ["data"; "max_" ++ status ++ "_price"] r,
        float_at ["data"; "avg_" ++ status ++ "_price"] r with
  | Some lo, Some med, Some hi, Some mean =>
      pf_le lo med && pf_le med hi && pf_le lo mean && pf_le mean hi
  | _, _, _, _ => false
  end.

(** A returned holding whose [pnl] is its [current_value - total_cost]. *)
Definition holding_pnl_consistent (h : value) : bool :=
  match float_at ["pnl"] h, float_at ["current_value"] h, float_at ["total_cost"] h with
  | Some p, Some v, Some c => pf_eqb p (pf_sub v c)
  | _, _, _ => false
  end.

(** The floor of the binary64 quotient [x / y] of finite [x] and [y]. *)
Definition binary64_floor_quotient (x y : pyfloat) : option Z :=
  match x, y with
  | Fin a, Fin b => Some (Qfloor (fdiv a b))
  | _, _ => None
  end.

(** The binary64 product of a finite [x] and an integer. *)
Definition binary64_product (x : pyfloat) (n : Z) : option pyfloat :=
  match x with
  | Fin a => Some (Fin (fmul a (inject_Z n)))
  | _ => None
  end.

(** [floor(x / y)] for finite [x] and [y]. *)
Definition floor_quotient (x y : pyfloat) : option Z :=
  match x, y with
  | Fin a, Fin b => Some (Qfloor (a / b))
  | _, _ => None
  end.


(** The values the docstring of [market_scanner] enumerates. *)
Definition valid_scan_types : list string :=
  ["trending"; "undervalued"; "arbitrage"; "new_listings"].

Definition valid_price_ranges : list string :=
  ["under100"; "100-500"; "500-1000"; "over1000"].

Definition known_scan_type (scan_type : string) : bool :=
  existsb (String.eqb scan_type) valid_scan_types.

Definition known_price_range (price_range : string) : bool :=
  existsb (String.eqb price_range) valid_price_ranges.

(** The shape every tool result has: a dict whose [success] is true, or the
    failure dict, made of [success], the message under [error], and the
    echoed parameters, in this order. *)
Inductive structured_result (echo : list string) : value -> Prop :=
| Success_result (fields : list (string * value)) :
    assoc "success" fields = Some (VBool true) ->
    structured_result echo (VDict fields)
| Failure_result (msg : string) (echoed : list (string * value)) :
    map fst echoed = echo ->
    structured_result echo
      (VDict (("success", VBool false) :: ("error", VStr msg) :: echoed)).

(** Modelled from the spec: the ListingStore collaborator and its Listing
    records (sections 2 and 3 of the specification).  No code under [src/]
    defines or consults either; they are here to name "a product with zero
    listings". *)
Inductive listing_status : Type := Sold | Active.

Record Listing : Type := mk_listing {
  listing_product_id : string;
  listing_price : Q;
  listing_state : listing_status;
  listing_source : string;
  listing_observed_at : Z;
  listing_fees : option Q
}.

Definition ListingStore : Type := string -> list Listing.

Definition empty_store : ListingStore := fun _ => [].

(** The float stored at [path] is numerically [x]. *)
Definition float_field_is (path : list string) (v : value) (x : pyfloat) : bool :=
  match float_at path v with
  | Some y => pf_eqb y x
  | None => false
  end.

(** A float that is neither an infinity nor NaN. *)
Definition is_finite (x : pyfloat) : bool :=
  match x with
  | Fin _ => true
  | _ => false
  end.

Definition is_nan (x : pyfloat) : bool :=
  match x with
  | NaN => true
  | _ => false
  end.

(** ** The summary of a portfolio

    Lines 304-326 of [get_portfolio_summary], as a function of the
    [portfolio] they read; [get_portfolio_summary_body] is this function at
    the portfolio literal of lines 273-302. *)
Definition portfolio_summary (portfolio : Portfolio.t) : outcome value :=
  if (0 <? Portfolio.active_positions portfolio)%Z then
    best_performer <- py_max Holding.pnl_pct (Portfolio.holdings portfolio) ;;
    worst_performer <- py_min Holding.pnl_pct (Portfolio.holdings portfolio) ;;
    Return
      (VDict
         [("success", VBool true);
          ("portfolio", Portfolio.to_value portfolio);
          ("performance",
           VDict
             [("best_performer", Holding.to_value best_performer);
              ("worst_performer", Holding.to_value worst_performer);
              ("overall_status",
               VStr (if pf_gt (Portfolio.unrealized_pnl_pct portfolio) (of_int 10)
                     then "Strong performance"
                     else if pf_gt (Portfolio.unrealized_pnl_pct portfolio) (of_int 0)
                          then "Moderate performance"
                          else "Underperforming"))]);
          ("recommendations",
           VList
             [VStr (if existsb (fun h => pf_gt (Holding.pnl_pct h) (of_int 25))
                                (Portfolio.holdings portfolio)
                    then "Consider profit-taking on outperformers"
                    else "Hold current positions");
              VStr (if pf_gt (Portfolio.unrealized_pnl_pct portfolio) (of_int 0)
                    then "Portfolio trending well"
                    else "Review underperforming assets")])])
  else
    Return
      (VDict
         [("success", VBool true);
          ("portfolio", VDict [("active_positions", VInt 0)]);
          ("message",
           VStr "Portfolio is empty. Start by recording some investments!")]).

(** The portfolio literal of the source. *)
Definition mock_portfolio : Portfolio.t :=
  Portfolio.mk (Fin 2450.00) (Fin 2680.50) (Fin 230.50) (Fin 9.4) 5 120
    [Holding.mk "Dominaria United Draft Booster Box" 3
       (Fin 270.00) (Fin 285.00) (Fin 15.00) (Fin 5.6) 90 "2024-03-01";
     Holding.mk "Modern Horizons 3 Collector Box" 1
       (Fin 380.00) (Fin 420.00) (Fin 40.00) (Fin 10.5) 60 "2024-04-15"].

(** The summary with the [try ... except] frame of the tool around it. *)
Definition summarize_portfolio (portfolio : Portfolio.t) : value :=
  try_except (portfolio_summary portfolio) [].

(** The strategy tips [analyze_investment_potential] builds for its fixed
    volatility (12.8), trend (5.2) and sample size (150). *)
Definition fixed_strategy_tips : list value :=
  [VStr "Consider lump sum investment";
   VStr "Current pricing appears favorable";
   VStr "High liquidity expected"].

(** The product name of the docstring examples. *)
Definition dominaria : string := "Dominaria United Draft Booster Box".

(** * Properties *)

(** ** Auxiliary facts *)

(** ** Rounding to binary64: order and sign *)

Section Rounding.
Local Open Scope Q_scope.

Lemma pow2_pos (e : Z) : 0 < pow2 e.
Proof. apply Qpower_0_lt. reflexivity. Qed.

Lemma pow2_le (e1 e2 : Z) : (e1 <= e2)%Z -> pow2 e1 <= pow2 e2.
Proof. intros H. apply Qpower_le_compat_l; [exact H | discriminate]. Qed.

Lemma pow2_lt_inv (e1 e2 : Z) : pow2 e1 < pow2 e2 -> (e1 < e2)%Z.
Proof. intros H. apply (Qpower_lt_compat_l_inv 2); [exact H | reflexivity]. Qed.

Lemma pow2_plus (e1 e2 : Z) : pow2 (e1 + e2) == pow2 e1 * pow2 e2.
Proof. apply Qpower_plus. discriminate. Qed.

Lemma pow2_cancel (e : Z) : pow2 (- e) * pow2 e == 1.
Proof. rewrite <- pow2_plus. now replace (- e + e)%Z with 0%Z by ring. Qed.

Lemma pow2_Z (n : Z) : (0 <= n)%Z -> pow2 n == inject_Z (2 ^ n).
Proof. intros H. unfold pow2. now rewrite Zpower_Qpower. Qed.

(** *** Rounding to an integer *)

Lemma rne_floor_or_next (x : Q) : rne x = Qfloor x \/ rne x = (Qfloor x + 1)%Z.
Proof.
  unfold rne. destruct (x - inject_Z (Qfloor x) ?= 1 # 2); auto.
  destruct (Z.even (Qfloor x)); auto.
Qed.

Lemma rne_lower (x : Q) (n : Z) : inject_Z n <= x -> (n <= rne x)%Z.
Proof.
  intros H. apply Qfloor_resp_le in H. rewrite Qfloor_Z in H.
  destruct (rne_floor_or_next x) as [-> | ->]; lia.
Qed.

Lemma Qfloor_lt_Z (x : Q) (n : Z) : x < inject_Z n -> (Qfloor x < n)%Z.
Proof.
  intros H. pose proof (Qfloor_le x) as Hf.
  pose proof (Qle_lt_trans _ _ _ Hf H) as Hlt.
  rewrite <- Zlt_Qlt in Hlt. exact Hlt.
Qed.

Lemma rne_Z (n : Z) : rne (inject_Z n) = n.
Proof.
  unfold rne. rewrite Qfloor_Z.
  assert (E : inject_Z n - inject_Z n == 0) by ring.
  destruct (Qcompare_spec (inject_Z n - inject_Z n) (1 # 2)) as [H | H | H].
  - rewrite E in H. discriminate.
  - reflexivity.
  - rewrite E in H. discriminate.
Qed.

Lemma rne_upper (x : Q) (n : Z) : x <= inject_Z n -> (rne x <= n)%Z.
Proof.
  intros H. destruct (Qle_lt_or_eq _ _ H) as [Hlt | Heq].
  - apply Qfloor_lt_Z in Hlt. destruct (rne_floor_or_next x) as [-> | ->]; lia.
  - assert (E : rne x = rne (inject_Z n)).
    { unfold rne. rewrite (Qfloor_comp _ _ Heq).
      assert (E2 : x - inject_Z (Qfloor (inject_Z n))
                   == inject_Z n - inject_Z (Qfloor (inject_Z n)))
        by (rewrite Heq; reflexivity).
      now rewrite (Qcompare_comp _ _ E2 (1#2) (1#2) (Qeq_refl _)). }
    rewrite E, rne_Z. lia.
Qed.

Lemma rne_monotone (x y : Q) : x <= y -> (rne x <= rne y)%Z.
Proof.
  intros Hxy. pose proof (Qfloor_resp_le _ _ Hxy) as Hf.
  destruct (Z.eq_dec (Qfloor x) (Qfloor y)) as [E | NE].
  - unfold rne. rewrite <- E.
    assert (Hr : x - inject_Z (Qfloor x) <= y - inject_Z (Qfloor x)).
    { apply Qplus_le_l with (z := inject_Z (Qfloor x)). ring_simplify. exact Hxy. }
    destruct (Qcompare_spec (x - inject_Z (Qfloor x)) (1 # 2)) as [Hx | Hx | Hx];
      destruct (Qcompare_spec (y - inject_Z (Qfloor x)) (1 # 2)) as [Hy | Hy | Hy];
      try lia; try (destruct (Z.even (Qfloor x)); lia).
    + exfalso. rewrite Hx in Hr. exact (Qlt_not_le _ _ Hy Hr).
    + exfalso. rewrite Hy in Hr. exact (Qlt_not_le _ _ Hx Hr).
    + exfalso. apply (Qlt_irrefl (1#2)).
      eapply Qlt_le_trans; [exact Hx |]. eapply Qle_trans; [exact Hr |].
      now apply Qlt_le_weak.
  - destruct (rne_floor_or_next x) as [-> | ->];
      destruct (rne_floor_or_next y) as [-> | ->]; lia.
Qed.

(** *** The binary logarithm *)

Lemma inject_Z_pos (d : Z) : (0 < d)%Z -> 0 < inject_Z d.
Proof. intros H. change 0 with (inject_Z 0). now rewrite <- Zlt_Qlt. Qed.

Lemma Qdiv_lt_pow2 (n d x y : Z) :
  (0 < d)%Z -> (0 <= x)%Z -> (0 <= y)%Z ->
  (n < 2 ^ x)%Z -> (2 ^ y <= d)%Z ->
  inject_Z n / inject_Z d < pow2 (x - y).
Proof.
  intros Hd Hx Hy Hn Hyd.
  apply Qlt_shift_div_r; [now apply inject_Z_pos |].
  apply Qlt_le_trans with (pow2 x).
  - rewrite pow2_Z by exact Hx. now rewrite <- Zlt_Qlt.
  - replace x with ((x - y) + y)%Z at 1 by ring. rewrite pow2_plus.
    apply Qmult_le_l; [apply pow2_pos |].
    rewrite pow2_Z by exact Hy. now rewrite <- Zle_Qle.
Qed.

Lemma Qdiv_ge_pow2 (n d x y : Z) :
  (0 < d)%Z -> (0 <= x)%Z -> (0 <= y)%Z ->
  (2 ^ x <= n)%Z -> (d <= 2 ^ y)%Z ->
  pow2 (x - y) <= inject_Z n / inject_Z d.
Proof.
  intros Hd Hx Hy Hn Hyd.
  apply Qle_shift_div_l; [now apply inject_Z_pos |].
  apply Qle_trans with (pow2 x).
  - replace x with ((x - y) + y)%Z at 2 by ring. rewrite pow2_plus.
    apply Qmult_le_l; [apply pow2_pos |].
    rewrite pow2_Z by exact Hy. now rewrite <- Zle_Qle.
  - rewrite pow2_Z by exact Hx. now rewrite <- Zle_Qle.
Qed.

Lemma ilog2_spec (a : Q) : 0 < a -> pow2 (ilog2 a) <= a /\ a < pow2 (ilog2 a + 1).
Proof.
  intros Ha. destruct a as [n d].
  assert (Hn : (0 < n)%Z).
  { unfold Qlt in Ha. simpl in Ha. lia. }
  pose proof (Z.log2_spec n Hn) as [Hn1 Hn2].
  pose proof (Z.log2_spec (Zpos d) (Pos2Z.is_pos d)) as [Hd1 Hd2].
  pose proof (Z.log2_nonneg n) as Hln.
  pose proof (Z.log2_nonneg (Zpos d)) as Hld.
  assert (Hup : n # d < pow2 (Z.log2 n - Z.log2 (Zpos d) + 1)).
  { rewrite Qmake_Qdiv.
    replace (Z.log2 n - Z.log2 (Zpos d) + 1)%Z
      with (Z.succ (Z.log2 n) - Z.log2 (Zpos d))%Z by lia.
    apply Qdiv_lt_pow2; lia. }
  assert (Hlow : pow2 (Z.log2 n - Z.log2 (Zpos d) - 1) <= n # d).
  { rewrite Qmake_Qdiv.
    replace (Z.log2 n - Z.log2 (Zpos d) - 1)%Z
      with (Z.log2 n - Z.succ (Z.log2 (Zpos d)))%Z by lia.
    apply Qdiv_ge_pow2; lia. }
  unfold ilog2. cbn [Qnum Qden].
  destruct (Qle_bool (pow2 (Z.log2 n - Z.log2 (Zpos d))) (n # d)) eqn:E.
  - apply Qle_bool_iff in E. split; assumption.
  - split; [exact Hlow |].
    replace (Z.log2 n - Z.log2 (Zpos d) - 1 + 1)%Z
      with (Z.log2 n - Z.log2 (Zpos d))%Z by lia.
    destruct (Qlt_le_dec (n # d) (pow2 (Z.log2 n - Z.log2 (Zpos d)))) as [H | H];
      [exact H |].
    apply Qle_bool_iff in H. congruence.
Qed.

Lemma ilog2_unique (a : Q) (l : Z) :
  pow2 l <= a -> a < pow2 (l + 1) -> ilog2 a = l.
Proof.
  intros H1 H2.
  assert (Ha : 0 < a) by (eapply Qlt_le_trans; [apply (pow2_pos l) | exact H1]).
  destruct (ilog2_spec a Ha) as [H3 H4].
  assert (ilog2 a < l + 1)%Z
    by (apply pow2_lt_inv; eapply Qle_lt_trans; eassumption).
  assert (l < ilog2 a + 1)%Z
    by (apply pow2_lt_inv; eapply Qle_lt_trans; eassumption).
  lia.
Qed.

Lemma ilog2_monotone (a b : Q) : 0 < a -> a <= b -> (ilog2 a <= ilog2 b)%Z.
Proof.
  intros Ha Hab.
  assert (Hb : 0 < b) by (eapply Qlt_le_trans; eassumption).
  destruct (ilog2_spec a Ha) as [H1 _]. destruct (ilog2_spec b Hb) as [_ H2].
  assert (ilog2 a < ilog2 b + 1)%Z.
  { apply pow2_lt_inv. eapply Qle_lt_trans; [exact H1 |].
    eapply Qle_lt_trans; eassumption. }
  lia.
Qed.

(** *** Rounding a positive rational *)

Lemma exponent_monotone (a b : Q) : 0 < a -> a <= b -> (exponent a <= exponent b)%Z.
Proof.
  intros Ha Hab. unfold exponent.
  pose proof (ilog2_monotone a b Ha Hab). lia.
Qed.

Lemma scaled_le (a b : Q) (e : Z) : a <= b -> a * pow2 (- e) <= b * pow2 (- e).
Proof.
  intros H. apply Qmult_le_compat_r; [exact H | apply Qlt_le_weak, pow2_pos].
Qed.

Lemma round_at_monotone (a b : Q) (e : Z) :
  a <= b ->
  inject_Z (rne (a * pow2 (- e))) * pow2 e <= inject_Z (rne (b * pow2 (- e))) * pow2 e.
Proof.
  intros H. apply Qmult_le_compat_r; [| apply Qlt_le_weak, pow2_pos].
  rewrite <- Zle_Qle. apply rne_monotone, scaled_le, H.
Qed.

Lemma round_pos_upper (a : Q) : 0 < a -> round_pos a <= pow2 (exponent a + 53).
Proof.
  intros Ha. unfold round_pos. cbv zeta.
  destruct (ilog2_spec a Ha) as [_ Hup].
  assert (He : (ilog2 a + 1 <= exponent a + 53)%Z) by (unfold exponent; lia).
  assert (Hs : a * pow2 (- exponent a) <= inject_Z (2 ^ 53)).
  { assert (E : pow2 53 == inject_Z (2 ^ 53)) by (apply pow2_Z; lia).
    rewrite <- E.
    apply Qle_trans with (pow2 (exponent a + 53) * pow2 (- exponent a)).
    - apply Qmult_le_compat_r; [| apply Qlt_le_weak, pow2_pos].
      apply Qlt_le_weak. eapply Qlt_le_trans; [exact Hup | now apply pow2_le].
    - rewrite <- pow2_plus.
      replace (exponent a + 53 + - exponent a)%Z with 53%Z by ring. apply Qle_refl. }
  apply rne_upper in Hs.
  rewrite (Z.add_comm (exponent a) 53), pow2_plus.
  apply Qmult_le_compat_r; [| apply Qlt_le_weak, pow2_pos].
  assert (E : pow2 53 == inject_Z (2 ^ 53)) by (apply pow2_Z; lia).
  rewrite E. now rewrite <- Zle_Qle.
Qed.

Lemma round_pos_lower (a : Q) :
  0 < a -> (-1074 < exponent a)%Z -> pow2 (exponent a + 52) <= round_pos a.
Proof.
  intros Ha He. unfold round_pos. cbv zeta.
  destruct (ilog2_spec a Ha) as [Hlow _].
  assert (Hl : ilog2 a = (exponent a + 52)%Z) by (unfold exponent in *; lia).
  assert (Hs : inject_Z (2 ^ 52) <= a * pow2 (- exponent a)).
  { assert (E : pow2 52 == inject_Z (2 ^ 52)) by (apply pow2_Z; lia).
    rewrite <- E.
    apply Qle_trans with (pow2 (exponent a + 52) * pow2 (- exponent a)).
    - rewrite <- pow2_plus.
      replace (exponent a + 52 + - exponent a)%Z with 52%Z by ring. apply Qle_refl.
    - apply Qmult_le_compat_r; [| apply Qlt_le_weak, pow2_pos].
      now rewrite <- Hl. }
  apply rne_lower in Hs.
  rewrite (Z.add_comm (exponent a) 52), pow2_plus.
  apply Qmult_le_compat_r; [| apply Qlt_le_weak, pow2_pos].
  assert (E : pow2 52 == inject_Z (2 ^ 52)) by (apply pow2_Z; lia).
  rewrite E. now rewrite <- Zle_Qle.
Qed.

Lemma round_pos_nonneg (a : Q) : 0 <= a -> 0 <= round_pos a.
Proof.
  intros Ha. unfold round_pos. cbv zeta.
  apply Qmult_le_0_compat; [| apply Qlt_le_weak, pow2_pos].
  change 0 with (inject_Z 0). rewrite <- Zle_Qle. apply rne_lower.
  apply Qmult_le_0_compat; [exact Ha | apply Qlt_le_weak, pow2_pos].
Qed.

Lemma round_pos_monotone (a b : Q) : 0 < a -> a <= b -> round_pos a <= round_pos b.
Proof.
  intros Ha Hab.
  assert (Hb : 0 < b) by (eapply Qlt_le_trans; eassumption).
  pose proof (exponent_monotone a b Ha Hab) as He.
  destruct (Z.eq_dec (exponent a) (exponent b)) as [E | NE].
  - unfold round_pos. cbv zeta. rewrite E. now apply round_at_monotone.
  - apply Qle_trans with (pow2 (exponent a + 53)); [now apply round_pos_upper |].
    apply Qle_trans with (pow2 (exponent b + 52)).
    + apply pow2_le. lia.
    + apply round_pos_lower; [exact Hb |].
      assert (-1074 <= exponent a)%Z by (unfold exponent; lia). lia.
Qed.

(** *** Rounding to binary64 *)

Lemma round_binary64_nonneg (x : Q) : 0 <= x -> 0 <= round_binary64 x.
Proof.
  intros Hx. unfold round_binary64.
  destruct (Qcompare_spec 0 x) as [E | Hlt | Hgt].
  - apply Qle_refl.
  - rewrite Qred_correct. now apply round_pos_nonneg.
  - exfalso. exact (Qlt_not_le _ _ Hgt Hx).
Qed.

Lemma round_binary64_nonpos (x : Q) : x <= 0 -> round_binary64 x <= 0.
Proof.
  intros Hx. unfold round_binary64.
  destruct (Qcompare_spec 0 x) as [E | Hlt | Hgt].
  - apply Qle_refl.
  - exfalso. exact (Qlt_not_le _ _ Hlt Hx).
  - rewrite Qred_correct.
    assert (H : 0 <= round_pos (- x)).
    { apply round_pos_nonneg. apply (Qopp_le_compat x 0) in Hx. exact Hx. }
    apply (Qopp_le_compat 0 (round_pos (- x))) in H. exact H.
Qed.

Lemma round_binary64_monotone (x y : Q) :
  x <= y -> round_binary64 x <= round_binary64 y.
Proof.
  intros Hxy.
  destruct (Qlt_le_dec 0 x) as [Hx | Hx].
  - assert (Hy : 0 < y) by (eapply Qlt_le_trans; eassumption).
    unfold round_binary64.
    destruct (Qcompare_spec 0 x) as [E | _ | Hgt];
      [rewrite <- E in Hx; now destruct (Qlt_irrefl 0) | |
       now destruct (Qlt_irrefl 0 (Qlt_trans _ _ _ Hx Hgt))].
    destruct (Qcompare_spec 0 y) as [E | _ | Hgt];
      [rewrite <- E in Hy; now destruct (Qlt_irrefl 0) | |
       now destruct (Qlt_irrefl 0 (Qlt_trans _ _ _ Hy Hgt))].
    rewrite !Qred_correct. now apply round_pos_monotone.
  - destruct (Qlt_le_dec y 0) as [Hy | Hy].
    + assert (Hx' : x < 0) by exact (Qle_lt_trans _ _ _ Hxy Hy).
      unfold round_binary64.
      destruct (Qcompare_spec 0 x) as [E | Hlt | _];
        [rewrite E in Hx'; now destruct (Qlt_irrefl x) |
         now destruct (Qlt_irrefl 0 (Qlt_trans _ _ _ Hlt Hx')) |].
      destruct (Qcompare_spec 0 y) as [E | Hlt | _];
        [rewrite E in Hy; now destruct (Qlt_irrefl y) |
         now destruct (Qlt_irrefl 0 (Qlt_trans _ _ _ Hlt Hy)) |].
      rewrite !Qred_correct. apply Qopp_le_compat.
      apply round_pos_monotone.
      * apply (Qopp_lt_compat y 0) in Hy. exact Hy.
      * now apply Qopp_le_compat.
    + apply Qle_trans with 0;
        [now apply round_binary64_nonpos | now apply round_binary64_nonneg].
Qed.

Lemma no_binary64_just_below_85 (q : Q) :
  is_binary64 q = true -> q < 85 -> q <= below_85.
Proof.
  intros Hb Hq. destruct (Qlt_le_dec below_85 q) as [Hgt | Hle]; [| exact Hle].
  exfalso.
  assert (Hpos : 0 < q) by (eapply Qlt_trans; [| exact Hgt]; reflexivity).
  assert (Hl : ilog2 q = 6%Z).
  { apply ilog2_unique.
    - apply Qlt_le_weak. eapply Qle_lt_trans; [| exact Hgt]. discriminate.
    - eapply Qlt_trans; [exact Hq | reflexivity]. }
  assert (He : exponent q = (-46)%Z) by (unfold exponent; rewrite Hl; reflexivity).
  apply Qeq_bool_iff in Hb. unfold round_binary64 in Hb.
  destruct (Qcompare_spec 0 q) as [E | _ | Hneg];
    [rewrite <- E in Hpos; now destruct (Qlt_irrefl 0) | |
     now destruct (Qlt_irrefl 0 (Qlt_trans _ _ _ Hpos Hneg))].
  rewrite Qred_correct in Hb. unfold round_pos in Hb. cbv zeta in Hb.
  rewrite He in Hb. change (- -46)%Z with 46%Z in Hb.
  set (N := rne (q * pow2 46)) in Hb.
  assert (E46 : pow2 46 == inject_Z (2 ^ 46)) by (apply pow2_Z; lia).
  assert (HN : inject_Z N == q * inject_Z (2 ^ 46)).
  { rewrite <- E46.
    assert (Hq' : q * pow2 46 == inject_Z N * pow2 (-46) * pow2 46)
      by (apply Qmult_comp; [symmetry; exact Hb | reflexivity]).
    rewrite Hq', <- Qmult_assoc.
    assert (Hc : pow2 (-46) * pow2 46 == 1) by exact (pow2_cancel 46).
    rewrite Hc. ring. }
  assert (H1 : inject_Z (85 * 2 ^ 46 - 1) < inject_Z N).
  { rewrite HN.
    assert (E : inject_Z (85 * 2 ^ 46 - 1) == below_85 * inject_Z (2 ^ 46))
      by reflexivity.
    rewrite E. apply Qmult_lt_compat_r; [reflexivity | exact Hgt]. }
  assert (H2 : inject_Z N < inject_Z (85 * 2 ^ 46)).
  { rewrite HN.
    assert (E : inject_Z (85 * 2 ^ 46) == 85 * inject_Z (2 ^ 46)) by reflexivity.
    rewrite E. apply Qmult_lt_compat_r; [reflexivity | exact Hq]. }
  rewrite <- Zlt_Qlt in H1, H2. lia.
Qed.

Lemma fdiv_monotone (a1 a2 b : Q) :
  0 < round_binary64 b -> a1 <= a2 -> fdiv a1 b <= fdiv a2 b.
Proof.
  intros Hb Ha. unfold fdiv. apply round_binary64_monotone. unfold Qdiv.
  apply Qmult_le_compat_r; [now apply round_binary64_monotone |].
  apply Qlt_le_weak, Qinv_lt_0_compat, Hb.
Qed.

Lemma fdiv_nonneg (a b : Q) : 0 < round_binary64 b -> 0 <= a -> 0 <= fdiv a b.
Proof.
  intros Hb Ha. unfold fdiv. apply round_binary64_nonneg.
  apply Qle_shift_div_l; [exact Hb |]. rewrite Qmult_0_l.
  now apply round_binary64_nonneg.
Qed.

Lemma fdiv_nonpos (a b : Q) : 0 < round_binary64 b -> a <= 0 -> fdiv a b <= 0.
Proof.
  intros Hb Ha. unfold fdiv. apply round_binary64_nonpos.
  apply Qle_shift_div_r; [exact Hb |]. rewrite Qmult_0_l.
  now apply round_binary64_nonpos.
Qed.

Lemma fmul_nonpos (a b : Q) : 0 <= a -> b <= 0 -> fmul a b <= 0.
Proof.
  intros Ha Hb. unfold fmul. apply round_binary64_nonpos.
  pose proof (round_binary64_nonneg a Ha) as Ha'.
  pose proof (round_binary64_nonpos b Hb) as Hb'.
  rewrite Qmult_comm.
  setoid_replace 0 with (0 * round_binary64 a) by ring.
  now apply Qmult_le_compat_r.
Qed.

(** The operations at sample operands, with the values binary64 arithmetic
    gives: a quotient that rounds up to an integer, an inexact sum, a
    product beyond 53 bits, a subnormal quotient. *)
Lemma binary64_samples :
  fdiv 11963716980088674 85 = 140749611530455
  /\ fdiv 1000 85 = 827867578560753 # 70368744177664
  /\ fadd 0.1 0.2 = 1351079888211149 # 4503599627370496
  /\ fmul 89.99 1.1 = 3482865808701391 # 35184372088832
  /\ fmul 6.5 (inject_Z 1529411764705882) = 9941176470588232
  /\ fdiv (5 / 10 ^ 324) 85 = 0.
Proof. vm_compute. repeat split. Qed.

(** A binary64 budget below 85, divided by 85 in binary64, stays below 1. *)
Lemma quotient_below_one (q : Q) :
  0 <= q -> q < 85 -> is_binary64 q = true ->
  Qfloor (fdiv q 85.00) = 0%Z.
Proof.
  intros H0 Hq Hb.
  pose proof (no_binary64_just_below_85 q Hb Hq) as Hle.
  assert (H85 : 0 < round_binary64 85.00) by reflexivity.
  pose proof (fdiv_monotone q below_85 85.00 H85 Hle) as Hup.
  pose proof (fdiv_nonneg q 85.00 H85 H0) as Hlow.
  apply Qfloor_resp_le in Hup, Hlow.
  assert (E : Qfloor (fdiv below_85 85.00) = 0%Z) by (vm_compute; reflexivity).
  rewrite E in Hup. change (Qfloor 0) with 0%Z in Hlow. lia.
Qed.
End Rounding.

Lemma Qtrunc_nonneg (r : Q) : (0 <= r)%Q -> Qtrunc r = Qfloor r.
Proof.
  intros Hr. unfold Qtrunc. apply Qle_bool_iff in Hr. now rewrite Hr.
Qed.

Lemma Qtrunc_nonpos (r : Q) : (r <= 0)%Q -> Qtrunc r = Qceiling r.
Proof.
  intros Hr. unfold Qtrunc. destruct (Qle_bool 0 r) eqn:E; [| reflexivity].
  apply Qle_bool_iff in E.
  assert (E0 : (r == 0)%Q) by (apply Qle_antisym; assumption).
  rewrite (Qfloor_comp _ _ E0), (Qceiling_comp _ _ E0). reflexivity.
Qed.

(** With a finite [max_investment] the body takes the [if opportunities:]
    branch and neither the division nor [int()] raises. *)
Lemma find_arbitrage_opportunities_finite (product_name : string)
    (min_profit_margin : pyfloat) (q : Q) :
  find_arbitrage_opportunities product_name min_profit_margin (Fin q) =
  VDict
    [("success", VBool true);
     ("opportunities_found", VInt 1);
     ("best_opportunity",
      Opportunity.to_value
        (Opportunity.mk (Fin 85.00) (Fin 95.00) (Fin 6.50) (Fin 7.6) 78 (Fin 3.50)
           "eBay Auctions" "eBay Buy-It-Now"));
     ("scaled_analysis",
      VDict [("max_units", VInt (Qtrunc (fdiv q 85.00)));
             ("total_profit",
              VFloat
                (pf_mul (Fin 6.50)
                   (of_int (Qtrunc (fdiv q 85.00)))));
             ("total_investment", VFloat (Fin q))]);
     ("product_name", VStr product_name)].
Proof. reflexivity. Qed.

(** Any other [max_investment] makes [int()] raise, and the tool returns its
    failure dict. *)
Lemma find_arbitrage_opportunities_not_finite (product_name : string)
    (min_profit_margin max_investment : pyfloat) :
  (forall q, max_investment <> Fin q) ->
  exists msg,
    find_arbitrage_opportunities product_name min_profit_margin max_investment =
    VDict [("success", VBool false); ("error", VStr msg);
           ("product_name", VStr product_name)].
Proof.
  intros Hnot. destruct max_investment as [q | | |].
  - now destruct (Hnot q).
  - now exists "cannot convert float infinity to integer".
  - now exists "cannot convert float infinity to integer".
  - now exists "cannot convert float NaN to integer".
Qed.

(** ** Price tracking *)

(** C1, as stated, fails: for a product that has no listing in the store,
    [track_product_prices] returns [success] true together with price
    statistics. *)
Lemma track_product_prices_zero_listings_succeeds :
  empty_store dominaria = [] /\
  success_of (track_product_prices dominaria "auto") = Some true /\
  dict_get "error" (track_product_prices dominaria "auto") = None /\
  float_at ["data"; "avg_sold_price"] (track_product_prices dominaria "auto")
  = Some (Fin 89.99).
Proof. repeat split. Qed.

(** C1, amended: [track_product_prices] consults no listing data; for every
    product name and update frequency it returns [success] true with the same
    fixed analysis, a summary counting 25 listings and the recommendation
    "Good buying opportunity", and no [error] field. *)
Theorem track_product_prices_fixed_analysis (product_name update_frequency : string) :
  track_product_prices product_name update_frequency =
  VDict
    [("success", VBool true);
     ("data",
      PriceAnalysis.to_value
        (PriceAnalysis.mk product_name 25 30 15 10
           (Fin 89.99) (Fin 87.50) (Fin 75.00) (Fin 105.00) (Fin 8.25)
           (Fin 92.50) (Fin 90.00) (Fin 85.00) (Fin 110.00)));
     ("summary", VStr ("Found 25 listings for " ++ product_name));
     ("recommendation", VStr "Good buying opportunity")]
  /\ success_of (track_product_prices product_name update_frequency) = Some true
  /\ dict_get "error" (track_product_prices product_name update_frequency) = None.
Proof. repeat split. Qed.

(** C7: in every result of the price-tracking operation, the statistics of
    each listing status satisfy min <= median <= max and min <= mean <= max. *)
Theorem track_product_prices_snapshots_ordered (product_name update_frequency : string) :
  snapshot_ordered "sold" (track_product_prices product_name update_frequency) = true
  /\ snapshot_ordered "active" (track_product_prices product_name update_frequency)
     = true.
Proof. split; reflexivity. Qed.

(** C9: the result of [track_product_prices] is the same dict for
    [update_frequency] "auto" and "force". *)
Theorem track_product_prices_ignores_update_frequency (product_name : string) :
  track_product_prices product_name "auto" = track_product_prices product_name "force".
Proof. reflexivity. Qed.

(** ** Arbitrage *)

(** C3, evaluated at the default arguments: with [min_profit_margin] 10.0 the
    tool succeeds and returns a best opportunity whose [roi_percentage], 7.6,
    is below the requested margin. *)
Theorem find_arbitrage_opportunities_roi_below_margin :
  success_of (find_arbitrage_opportunities dominaria (Fin 10.0) (Fin 1000.0))
  = Some true
  /\ float_at ["best_opportunity"; "roi_percentage"]
       (find_arbitrage_opportunities dominaria (Fin 10.0) (Fin 1000.0))
     = Some (Fin 7.6)
  /\ pf_lt (Fin 7.6) (Fin 10.0) = true.
Proof. repeat split. Qed.

(** C6, as stated, fails: at [max_investment] 11963716980088674.0, a
    binary64 value, the best opportunity has [buy_price] 85.00, the floor of
    the exact quotient is 140749611530454, and the tool returns [max_units]
    140749611530455, the binary64 quotient having rounded up to an
    integer. *)
Lemma find_arbitrage_opportunities_scaling_rounds_up :
  is_binary64 11963716980088674 = true
  /\ pf_lt (of_int 0) (Fin 11963716980088674) = true
  /\ float_at ["best_opportunity"; "buy_price"]
       (find_arbitrage_opportunities dominaria (Fin 10.0) (Fin 11963716980088674))
     = Some (Fin 85.00)
  /\ pf_lt (of_int 0) (Fin 85.00) = true
  /\ floor_quotient (Fin 11963716980088674) (Fin 85.00) = Some 140749611530454%Z
  /\ value_at ["scaled_analysis"; "max_units"]
       (find_arbitrage_opportunities dominaria (Fin 10.0) (Fin 11963716980088674))
     = Some (VInt 140749611530455).
Proof. vm_compute. repeat split. Qed.

Lemma pf_lt_zero_Fin (q : Q) : pf_lt (of_int 0) (Fin q) = true -> (0 < q)%Q.
Proof.
  unfold pf_lt, of_int. intros H.
  apply negb_true_iff in H.
  destruct (Qlt_le_dec 0 q) as [Hlt | Hle]; [exact Hlt |].
  apply Qle_bool_iff in Hle. change (inject_Z 0) with 0%Q in H. congruence.
Qed.

(** C6, amended: for [max_investment > 0] and a returned best opportunity
    with [buy_price > 0], [max_units] is the floor of the binary64 quotient
    [max_investment / buy_price] (the exact quotient rounded to nearest, ties
    to even), and [total_profit] is the binary64 product
    [net_profit * max_units]. *)
Theorem find_arbitrage_opportunities_scaling_binary64
    (product_name : string) (min_profit_margin max_investment : pyfloat)
    (buy_price net_profit : pyfloat) :
  pf_lt (of_int 0) max_investment = true ->
  float_at ["best_opportunity"; "buy_price"]
    (find_arbitrage_opportunities product_name min_profit_margin max_investment)
  = Some buy_price ->
  float_at ["best_opportunity"; "net_profit"]
    (find_arbitrage_opportunities product_name min_profit_margin max_investment)
  = Some net_profit ->
  pf_lt (of_int 0) buy_price = true ->
  exists max_units total_profit,
    binary64_floor_quotient max_investment buy_price = Some max_units
    /\ value_at ["scaled_analysis"; "max_units"]
         (find_arbitrage_opportunities product_name min_profit_margin max_investment)
       = Some (VInt max_units)
    /\ binary64_product net_profit max_units = Some total_profit
    /\ value_at ["scaled_analysis"; "total_profit"]
         (find_arbitrage_opportunities product_name min_profit_margin max_investment)
       = Some (VFloat total_profit).
Proof.
  intros Hpos Hbuy Hnet _.
  destruct max_investment as [q | | |]; try discriminate.
  rewrite find_arbitrage_opportunities_finite in *.
  injection Hbuy as <-. injection Hnet as <-.
  apply pf_lt_zero_Fin in Hpos.
  assert (Hquot : Qtrunc (fdiv q 85.00) = Qfloor (fdiv q 85.00)).
  { apply Qtrunc_nonneg, fdiv_nonneg; [reflexivity | now apply Qlt_le_weak]. }
  exists (Qfloor (fdiv q 85.00)). eexists.
  rewrite Hquot. repeat split.
Qed.

Lemma find_arbitrage_opportunities_scaling_binary64_witness :
  pf_lt (of_int 0) (Fin 1000.0) = true
  /\ exists max_units total_profit,
       binary64_floor_quotient (Fin 1000.0) (Fin 85.00) = Some max_units
       /\ value_at ["scaled_analysis"; "max_units"]
            (find_arbitrage_opportunities dominaria (Fin 10.0) (Fin 1000.0))
          = Some (VInt max_units)
       /\ binary64_product (Fin 6.50) max_units = Some total_profit
       /\ value_at ["scaled_analysis"; "total_profit"]
            (find_arbitrage_opportunities dominaria (Fin 10.0) (Fin 1000.0))
          = Some (VFloat total_profit).
Proof.
  split; [reflexivity |].
  apply (find_arbitrage_opportunities_scaling_binary64 dominaria (Fin 10.0)
           (Fin 1000.0) (Fin 85.00) (Fin 6.50)); reflexivity.
Defined.

(** ** Market scanner *)

Lemma known_price_range_false (price_range : string) :
  known_price_range price_range = false ->
  price_bounds price_range = (of_int 0, float_inf).
Proof.
  unfold known_price_range, valid_price_ranges, price_bounds. simpl.
  intros H. repeat (apply orb_false_iff in H; destruct H as [-> H]). reflexivity.
Qed.

Lemma known_scan_type_false (scan_type : string) :
  known_scan_type scan_type = false ->
  String.eqb scan_type "trending" = false.
Proof.
  unfold known_scan_type, valid_scan_types. simpl.
  intros H. now apply orb_false_iff in H.
Qed.

(** Whatever the scan type, the catalog holds the same two prices. *)
Lemma scan_catalog_prices (scan_type : string) :
  map Scan.price (scan_catalog scan_type) = [Fin 89.99; Fin 145.00].
Proof. reflexivity. Qed.

Lemma filter_unbounded (price_range scan_type : string) :
  price_bounds price_range = (of_int 0, float_inf) ->
  filter_by_price_range price_range (scan_catalog scan_type) = scan_catalog scan_type.
Proof.
  intros Hb. unfold filter_by_price_range, scan_catalog, in_price_range.
  rewrite Hb. reflexivity.
Qed.

(** C4, as stated, fails: a scan type and a price range outside the
    enumerated values give a successful result, without [error], listing both
    catalog entries. *)
Lemma market_scanner_unknown_values_succeed :
  known_scan_type "sideways" = false
  /\ known_price_range "cheap" = false
  /\ success_of (market_scanner "sideways" "cheap" "7d") = Some true
  /\ dict_get "error" (market_scanner "sideways" "cheap" "7d") = None
  /\ value_at ["opportunities_found"] (market_scanner "sideways" "cheap" "7d")
     = Some (VInt 2).
Proof. repeat split. Qed.

(** C4, amended: a call with a scan type or a price range outside the
    enumerated values returns [success] true and no [error]; an unknown price
    range keeps the initial bounds [0, inf], so both catalog entries are
    returned, and an unknown scan type yields the entries of every scan type
    other than "trending". *)
Theorem market_scanner_defaults_unknown_values
    (scan_type price_range time_period : string) :
  known_scan_type scan_type = false \/ known_price_range price_range = false ->
  success_of (market_scanner scan_type price_range time_period) = Some true
  /\ dict_get "error" (market_scanner scan_type price_range time_period) = None
  /\ (known_price_range price_range = true
      \/ (price_bounds price_range = (of_int 0, float_inf)
          /\ list_at ["opportunities"] (market_scanner scan_type price_range time_period)
             = Some (map Scan.to_value (scan_catalog scan_type))))
  /\ (known_scan_type scan_type = true
      \/ scan_catalog scan_type = scan_catalog "undervalued").
Proof.
  intros _. repeat split.
  - destruct (known_price_range price_range) eqn:Hk; [now left | right].
    pose proof (known_price_range_false _ Hk) as Hb. split; [exact Hb |].
    unfold market_scanner, market_scanner_body. cbv zeta.
    rewrite (filter_unbounded _ _ Hb). reflexivity.
  - destruct (known_scan_type scan_type) eqn:Hk; [now left | right].
    unfold scan_catalog. now rewrite (known_scan_type_false _ Hk).
Qed.

Lemma market_scanner_defaults_unknown_values_witness :
  (known_scan_type "sideways" = false \/ known_price_range "cheap" = false)
  /\ success_of (market_scanner "sideways" "cheap" "7d") = Some true
  /\ dict_get "error" (market_scanner "sideways" "cheap" "7d") = None
  /\ (known_price_range "cheap" = true
      \/ (price_bounds "cheap" = (of_int 0, float_inf)
          /\ list_at ["opportunities"] (market_scanner "sideways" "cheap" "7d")
             = Some (map Scan.to_value (scan_catalog "sideways"))))
  /\ (known_scan_type "sideways" = true
      \/ scan_catalog "sideways" = scan_catalog "undervalued").
Proof.
  split; [left; reflexivity |].
  apply (market_scanner_defaults_unknown_values "sideways" "cheap" "7d").
  left; reflexivity.
Defined.




(** ** Portfolio *)

(** C2, as stated, fails: the portfolio-level [unrealized_pnl] that
    [get_portfolio_summary] returns is 230.50, the [pnl] of the holdings it
    returns add up to 55, and the two differ. *)
Lemma get_portfolio_summary_pnl_mismatch :
  float_at ["portfolio"; "unrealized_pnl"] get_portfolio_summary = Some (Fin 230.50)
  /\ match list_at ["portfolio"; "holdings"] get_portfolio_summary with
     | Some holdings => sum_field "pnl" holdings
     | None => None
     end = Some (Fin 55)
  /\ pf_eqb (Fin 230.50) (Fin 55) = false.
Proof. repeat split. Qed.

(** C2, amended: for the two holdings [get_portfolio_summary] returns (cost
    270 and value 285, cost 380 and value 420) each [pnl] is
    [current_value - total_cost] and their sum is 15 + 40 = 55; the
    portfolio-level [unrealized_pnl] is the fixed 230.50, which is the
    portfolio's [current_value - total_invested], not that sum. *)
Theorem get_portfolio_summary_pnl :
  exists h1 h2,
    list_at ["portfolio"; "holdings"] get_portfolio_summary = Some [h1; h2]
    /\ float_at ["total_cost"] h1 = Some (Fin 270.00)
    /\ float_at ["current_value"] h1 = Some (Fin 285.00)
    /\ float_at ["total_cost"] h2 = Some (Fin 380.00)
    /\ float_at ["current_value"] h2 = Some (Fin 420.00)
    /\ holding_pnl_consistent h1 = true
    /\ holding_pnl_consistent h2 = true
    /\ sum_field "pnl" [h1; h2] = Some (pf_add (Fin 15) (Fin 40))
    /\ sum_field "pnl" [h1; h2] = Some (Fin 55)
    /\ float_at ["portfolio"; "unrealized_pnl"] get_portfolio_summary
       = Some (Fin 230.50)
    /\ match float_at ["portfolio"; "current_value"] get_portfolio_summary,
             float_at ["portfolio"; "total_invested"] get_portfolio_summary with
       | Some v, Some c => pf_eqb (pf_sub v c) (Fin 230.50)
       | _, _ => false
       end = true.
Proof. do 2 eexists. repeat split. Qed.

(** C10: [get_portfolio_summary] takes the [active_positions > 0] branch: it
    returns [success] true and the fixed portfolio of two holdings, without
    the [message] of the empty-portfolio branch; its best performer is the
    holding with [pnl_pct] 10.5 and its worst the one with [pnl_pct] 5.6. *)
Theorem get_portfolio_summary_active_branch :
  success_of get_portfolio_summary = Some true
  /\ dict_get "message" get_portfolio_summary = None
  /\ value_at ["portfolio"; "active_positions"] get_portfolio_summary = Some (VInt 5)
  /\ list_at ["portfolio"; "holdings"] get_portfolio_summary
     = Some
         [Holding.to_value
            (Holding.mk "Dominaria United Draft Booster Box" 3
               (Fin 270.00) (Fin 285.00) (Fin 15.00) (Fin 5.6) 90 "2024-03-01");
          Holding.to_value
            (Holding.mk "Modern Horizons 3 Collector Box" 1
               (Fin 380.00) (Fin 420.00) (Fin 40.00) (Fin 10.5) 60 "2024-04-15")]
  /\ value_at ["performance"; "best_performer"] get_portfolio_summary
     = Some
         (Holding.to_value
            (Holding.mk "Modern Horizons 3 Collector Box" 1
               (Fin 380.00) (Fin 420.00) (Fin 40.00) (Fin 10.5) 60 "2024-04-15"))
  /\ float_at ["performance"; "best_performer"; "pnl_pct"] get_portfolio_summary
     = Some (Fin 10.5)
  /\ value_at ["performance"; "worst_performer"] get_portfolio_summary
     = Some
         (Holding.to_value
            (Holding.mk "Dominaria United Draft Booster Box" 3
               (Fin 270.00) (Fin 285.00) (Fin 15.00) (Fin 5.6) 90 "2024-03-01"))
  /\ float_at ["performance"; "worst_performer"; "pnl_pct"] get_portfolio_summary
     = Some (Fin 5.6).
Proof. repeat split. Qed.

(** ** Result shape *)

Lemma horizon_multiplier_cases (investment_horizon : string) :
  get_default [("short", Fin 0.5); ("medium", Fin 1.0); ("long", Fin 2.0)]
    investment_horizon (Fin 1.0)
  = Fin 0.5
  \/ get_default [("short", Fin 0.5); ("medium", Fin 1.0); ("long", Fin 2.0)]
       investment_horizon (Fin 1.0)
     = Fin 1.0
  \/ get_default [("short", Fin 0.5); ("medium", Fin 1.0); ("long", Fin 2.0)]
       investment_horizon (Fin 1.0)
     = Fin 2.0.
Proof.
  unfold get_default. simpl.
  destruct (String.eqb investment_horizon "short"); [now left |].
  destruct (String.eqb investment_horizon "medium"); [now right; left |].
  destruct (String.eqb investment_horizon "long"); [now right; right |].
  now right; left.
Qed.

Lemma analyze_investment_potential_succeeds (product_name investment_horizon : string) :
  exists fields,
    analyze_investment_potential product_name investment_horizon = VDict fields
    /\ assoc "success" fields = Some (VBool true).
Proof.
  unfold analyze_investment_potential, analyze_investment_potential_body.
  cbv zeta.
  destruct (horizon_multiplier_cases investment_horizon) as [-> | [-> | ->]];
    eexists; split; reflexivity.
Qed.

(** C8, as stated, fails: the failure result of
    [find_arbitrage_opportunities] for an infinite [max_investment] has
    exactly the fields [success], [error] and [product_name]; [error] holds
    the message of the exception and no field holds an error code. *)
Lemma find_arbitrage_opportunities_failure_without_code :
  success_of (find_arbitrage_opportunities dominaria (Fin 10.0) PosInf) = Some false
  /\ dict_keys (find_arbitrage_opportunities dominaria (Fin 10.0) PosInf)
     = ["success"; "error"; "product_name"]
  /\ dict_get "error" (find_arbitrage_opportunities dominaria (Fin 10.0) PosInf)
     = Some (VStr "cannot convert float infinity to integer").
Proof. repeat split. Qed.

(** C8, amended: for every input, each of the five tools returns a dict with
    a [success] flag and propagates no exception; a failure result holds the
    flag, the exception's message under [error], and the echoed parameters,
    and nothing else. *)
Theorem tools_return_structured_results
    (product_name update_frequency investment_horizon : string)
    (scan_type price_range time_period : string)
    (min_profit_margin max_investment : pyfloat) :
  structured_result ["product_name"]
    (track_product_prices product_name update_frequency)
  /\ structured_result ["product_name"]
       (find_arbitrage_opportunities product_name min_profit_margin max_investment)
  /\ structured_result ["product_name"]
       (analyze_investment_potential product_name investment_horizon)
  /\ structured_result ["scan_type"; "price_range"]
       (market_scanner scan_type price_range time_period)
  /\ structured_result [] get_portfolio_summary.
Proof.
  repeat split.
  - now apply Success_result.
  - destruct max_investment as [q | | |].
    + rewrite find_arbitrage_opportunities_finite. now apply Success_result.
    + now apply (Failure_result ["product_name"] _ [("product_name", VStr product_name)]).
    + now apply (Failure_result ["product_name"] _ [("product_name", VStr product_name)]).
    + now apply (Failure_result ["product_name"] _ [("product_name", VStr product_name)]).
  - destruct (analyze_investment_potential_succeeds product_name investment_horizon)
      as [fields [-> Hs]].
    now apply Success_result.
  - now apply Success_result.
  - now apply Success_result.
Qed.

(** * Further properties of the tools *)

(** ** The portfolio summary in general *)

Lemma get_portfolio_summary_is_summary_of_mock :
  get_portfolio_summary_body = portfolio_summary mock_portfolio
  /\ get_portfolio_summary = summarize_portfolio mock_portfolio.
Proof. split; reflexivity. Qed.

(** ** Arbitrage: margin, failure and scaling *)

Lemma Qtrunc_monotone (x y : Q) : (x <= y)%Q -> (Qtrunc x <= Qtrunc y)%Z.
Proof.
  intros Hxy. unfold Qtrunc.
  destruct (Qle_bool 0 x) eqn:Ex, (Qle_bool 0 y) eqn:Ey.
  - now apply Qfloor_resp_le.
  - apply Qle_bool_iff in Ex.
    assert (Hy : (0 <= y)%Q) by (eapply Qle_trans; eassumption).
    apply Qle_bool_iff in Hy. congruence.
  - apply Qle_bool_iff in Ey.
    assert (Hx : (x <= 0)%Q).
    { destruct (Qlt_le_dec x 0) as [H | H]; [now apply Qlt_le_weak |].
      apply Qle_bool_iff in H. congruence. }
    apply Z.le_trans with 0%Z.
    + change 0%Z with (Qceiling 0). now apply Qceiling_resp_le.
    + change 0%Z with (Qfloor 0). now apply Qfloor_resp_le.
  - now apply Qceiling_resp_le.
Qed.

Lemma Qdiv_le_compat_pos (x y d : Q) : (0 < d)%Q -> (x <= y)%Q -> (x / d <= y / d)%Q.
Proof.
  intros Hd Hxy. unfold Qdiv. apply Qmult_le_compat_r; [exact Hxy |].
  apply Qlt_le_weak, Qinv_lt_0_compat, Hd.
Qed.

(** [find_arbitrage_opportunities] never reads [min_profit_margin] on the
    path it takes: two calls that differ only in the margin return the same
    result. *)
Theorem find_arbitrage_opportunities_ignores_margin
    (product_name : string) (margin1 margin2 max_investment : pyfloat) :
  find_arbitrage_opportunities product_name margin1 max_investment
  = find_arbitrage_opportunities product_name margin2 max_investment.
Proof. reflexivity. Qed.

(** [find_arbitrage_opportunities] fails exactly when [max_investment] is an
    infinity or NaN: [int()] then raises [OverflowError], resp. [ValueError],
    and the tool returns the message under [error]; for a finite
    [max_investment] of either sign it succeeds. *)
Theorem find_arbitrage_opportunities_fails_iff_not_finite
    (product_name : string) (min_profit_margin max_investment : pyfloat) :
  success_of (find_arbitrage_opportunities product_name min_profit_margin max_investment)
  = Some (is_finite max_investment)
  /\ match max_investment with
     | Fin _ =>
         dict_get "error"
           (find_arbitrage_opportunities product_name min_profit_margin max_investment)
         = None
     | PosInf | NegInf =>
         find_arbitrage_opportunities_body product_name min_profit_margin max_investment
         = Raise (mk_exn OverflowError "cannot convert float infinity to integer")
         /\ dict_get "error"
              (find_arbitrage_opportunities product_name min_profit_margin max_investment)
            = Some (VStr "cannot convert float infinity to integer")
     | NaN =>
         find_arbitrage_opportunities_body product_name min_profit_margin max_investment
         = Raise (mk_exn ValueError "cannot convert float NaN to integer")
         /\ dict_get "error"
              (find_arbitrage_opportunities product_name min_profit_margin max_investment)
            = Some (VStr "cannot convert float NaN to integer")
     end.
Proof. destruct max_investment; repeat split. Qed.

(** A budget below the buy price buys nothing: for a binary64
    [max_investment] with [0 <= max_investment < 85] the tool still succeeds
    and reports one opportunity, with [max_units] 0 and [total_profit] 0. *)
Theorem find_arbitrage_opportunities_budget_below_price
    (product_name : string) (min_profit_margin : pyfloat) (q : Q) :
  is_binary64 q = true ->
  (0 <= q)%Q -> (q < 85)%Q ->
  success_of (find_arbitrage_opportunities product_name min_profit_margin (Fin q))
  = Some true
  /\ value_at ["opportunities_found"]
       (find_arbitrage_opportunities product_name min_profit_margin (Fin q))
     = Some (VInt 1)
  /\ value_at ["scaled_analysis"; "max_units"]
       (find_arbitrage_opportunities product_name min_profit_margin (Fin q))
     = Some (VInt 0)
  /\ value_at ["scaled_analysis"; "total_profit"]
       (find_arbitrage_opportunities product_name min_profit_margin (Fin q))
     = Some (VFloat (Fin 0)).
Proof.
  intros Hb Hq Hlt. rewrite find_arbitrage_opportunities_finite.
  assert (Hunits : Qtrunc (fdiv q 85.00) = 0%Z).
  { rewrite Qtrunc_nonneg.
    - now apply quotient_below_one.
    - now apply fdiv_nonneg. }
  rewrite Hunits. repeat split.
Qed.

Lemma find_arbitrage_opportunities_budget_below_price_witness :
  is_binary64 50 = true /\ (0 <= 50)%Q /\ (50 < 85)%Q
  /\ value_at ["scaled_analysis"; "max_units"]
       (find_arbitrage_opportunities dominaria (Fin 10.0) (Fin 50))
     = Some (VInt 0).
Proof.
  split; [reflexivity |]. split; [discriminate |]. split; [reflexivity |].
  apply (find_arbitrage_opportunities_budget_below_price dominaria (Fin 10.0) 50);
    [reflexivity | discriminate | reflexivity].
Defined.

(** A negative finite [max_investment] is not rejected: the tool succeeds,
    [int()] truncates the binary64 quotient toward zero, so [max_units] is
    its ceiling, at most 0, and [total_profit] is at most 0. *)
Theorem find_arbitrage_opportunities_negative_budget
    (product_name : string) (min_profit_margin : pyfloat) (q : Q) :
  (q < 0)%Q ->
  success_of (find_arbitrage_opportunities product_name min_profit_margin (Fin q))
  = Some true
  /\ value_at ["scaled_analysis"; "max_units"]
       (find_arbitrage_opportunities product_name min_profit_margin (Fin q))
     = Some (VInt (Qceiling (fdiv q 85.00)))
  /\ (Qceiling (fdiv q 85.00) <= 0)%Z
  /\ exists profit,
       float_at ["scaled_analysis"; "total_profit"]
         (find_arbitrage_opportunities product_name min_profit_margin (Fin q))
       = Some (Fin profit)
       /\ (profit <= 0)%Q.
Proof.
  intros Hq. rewrite find_arbitrage_opportunities_finite.
  assert (Hneg : (fdiv q 85.00 <= 0)%Q).
  { apply fdiv_nonpos; [reflexivity | now apply Qlt_le_weak]. }
  rewrite (Qtrunc_nonpos _ Hneg).
  assert (Hceil : (Qceiling (fdiv q 85.00) <= 0)%Z).
  { change 0%Z with (Qceiling 0). now apply Qceiling_resp_le. }
  repeat split; [exact Hceil |].
  eexists. split; [reflexivity |].
  apply fmul_nonpos; [discriminate |].
  change 0%Q with (inject_Z 0). now rewrite <- Zle_Qle.
Qed.

Lemma find_arbitrage_opportunities_negative_budget_witness :
  (-100 < 0)%Q
  /\ value_at ["scaled_analysis"; "max_units"]
       (find_arbitrage_opportunities dominaria (Fin 10.0) (Fin (-100)))
     = Some (VInt (-1)).
Proof.
  split; [reflexivity |].
  apply (find_arbitrage_opportunities_negative_budget dominaria (Fin 10.0) (-100)).
  reflexivity.
Defined.

(** [max_units] is monotone in a finite [max_investment]: a larger budget
    never buys fewer units. *)
Theorem find_arbitrage_opportunities_units_monotone
    (product_name : string) (margin1 margin2 : pyfloat) (q1 q2 : Q) :
  (q1 <= q2)%Q ->
  exists units1 units2,
    value_at ["scaled_analysis"; "max_units"]
      (find_arbitrage_opportunities product_name margin1 (Fin q1))
    = Some (VInt units1)
    /\ value_at ["scaled_analysis"; "max_units"]
         (find_arbitrage_opportunities product_name margin2 (Fin q2))
       = Some (VInt units2)
    /\ (units1 <= units2)%Z.
Proof.
  intros Hle. rewrite !find_arbitrage_opportunities_finite.
  do 2 eexists. split; [reflexivity |]. split; [reflexivity |].
  apply Qtrunc_monotone, fdiv_monotone; [reflexivity | exact Hle].
Qed.

Lemma find_arbitrage_opportunities_units_monotone_witness :
  (500 <= 1000)%Q
  /\ exists units1 units2,
       value_at ["scaled_analysis"; "max_units"]
         (find_arbitrage_opportunities dominaria (Fin 10.0) (Fin 500))
       = Some (VInt units1)
       /\ value_at ["scaled_analysis"; "max_units"]
            (find_arbitrage_opportunities dominaria (Fin 10.0) (Fin 1000))
          = Some (VInt units2)
       /\ (units1 <= units2)%Z.
Proof.
  split; [discriminate |].
  apply (find_arbitrage_opportunities_units_monotone dominaria (Fin 10.0) (Fin 10.0)
           500 1000).
  discriminate.
Defined.

(** ** Market scanner: counts, ignored parameters and buckets *)

(** For every input the reported [opportunities_found] is the number of
    entries in [opportunities], the summary names the same count, and at
    most the two catalog entries are returned. *)
Theorem market_scanner_count_matches (scan_type price_range time_period : string) :
  exists items,
    list_at ["opportunities"] (market_scanner scan_type price_range time_period)
    = Some items
    /\ value_at ["opportunities_found"]
         (market_scanner scan_type price_range time_period)
       = Some (VInt (len items))
    /\ value_at ["summary"] (market_scanner scan_type price_range time_period)
       = Some (VStr ("Found " ++ str_int (len items) ++ " " ++ scan_type
                     ++ " opportunities in $" ++ replace_char "-" " - " price_range
                     ++ " range"))
    /\ (length items <= 2)%nat.
Proof.
  unfold market_scanner, market_scanner_body. cbv zeta.
  set (kept := filter_by_price_range price_range (scan_catalog scan_type)).
  exists (map Scan.to_value kept).
  assert (Hlen : len (map Scan.to_value kept) = len kept)
    by (unfold len; now rewrite length_map).
  rewrite Hlen. repeat split.
  rewrite length_map. unfold kept, filter_by_price_range.
  apply (Nat.le_trans _ _ _ (filter_length_le _ _)). reflexivity.
Qed.

(** [time_period] is only echoed: two calls that differ in it alone agree on
    every field of the result other than [time_period]. *)
Theorem market_scanner_ignores_time_period
    (scan_type price_range period1 period2 key : string) :
  String.eqb key "time_period" = false ->
  dict_get key (market_scanner scan_type price_range period1)
  = dict_get key (market_scanner scan_type price_range period2).
Proof.
  intros Hkey. unfold market_scanner, market_scanner_body, try_except, dict_get.
  cbv zeta. cbn [dict_fields assoc]. rewrite Hkey. reflexivity.
Qed.

Lemma market_scanner_ignores_time_period_witness :
  String.eqb "opportunities" "time_period" = false
  /\ dict_get "opportunities" (market_scanner "trending" "100-500" "1d")
     = dict_get "opportunities" (market_scanner "trending" "100-500" "30d").
Proof.
  split; [reflexivity |].
  apply (market_scanner_ignores_time_period "trending" "100-500" "1d" "30d"
           "opportunities").
  reflexivity.
Defined.

(** Every scan type other than "trending" produces the same opportunities:
    "undervalued", "arbitrage", "new_listings" and any unknown value are not
    told apart. *)
Theorem market_scanner_non_trending_coincide
    (scan1 scan2 price_range period1 period2 : string) :
  String.eqb scan1 "trending" = false ->
  String.eqb scan2 "trending" = false ->
  list_at ["opportunities"] (market_scanner scan1 price_range period1)
  = list_at ["opportunities"] (market_scanner scan2 price_range period2).
Proof.
  intros H1 H2. unfold market_scanner, market_scanner_body, scan_catalog.
  cbv zeta. rewrite H1, H2. reflexivity.
Qed.

Lemma market_scanner_non_trending_coincide_witness :
  list_at ["opportunities"] (market_scanner "undervalued" "100-500" "7d")
  = list_at ["opportunities"] (market_scanner "arbitrage" "100-500" "7d").
Proof.
  apply (market_scanner_non_trending_coincide "undervalued" "arbitrage" "100-500"
           "7d" "7d"); reflexivity.
Defined.

Lemma price_bounds_min_nonneg (price_range : string) :
  pf_le (of_int 0) (fst (price_bounds price_range)) = true.
Proof.
  unfold price_bounds. cbv zeta.
  repeat match goal with
         | |- context [if ?c then _ else _] => destruct c
         end; reflexivity.
Qed.

Lemma pf_le_trans (x y z : pyfloat) :
  pf_le x y = true -> pf_le y z = true -> pf_le x z = true.
Proof.
  destruct x as [a | | |], y as [b | | |], z as [c | | |];
    simpl; try discriminate; try reflexivity.
  intros Hab Hbc. apply Qle_bool_iff in Hab, Hbc. apply Qle_bool_iff.
  eapply Qle_trans; eassumption.
Qed.

(** Whatever the catalog and whatever the price range, known or not, every
    entry the filter keeps is an entry of the catalog whose price is at least
    0 (so neither negative nor NaN), and filtering again changes nothing. *)
Theorem filter_by_price_range_keeps_nonneg_prices
    (price_range : string) (catalog : list Scan.t) :
  Forall (fun opp => In opp catalog /\ pf_le (of_int 0) (Scan.price opp) = true)
    (filter_by_price_range price_range catalog)
  /\ filter_by_price_range price_range (filter_by_price_range price_range catalog)
     = filter_by_price_range price_range catalog.
Proof.
  split.
  - apply Forall_forall. intros opp Hin.
    apply filter_In in Hin. destruct Hin as [Hin Hrange]. split; [exact Hin |].
    unfold in_price_range in Hrange.
    pose proof (price_bounds_min_nonneg price_range) as Hmin.
    destruct (price_bounds price_range) as [lo hi]. cbn [fst] in Hmin.
    apply andb_true_iff in Hrange. destruct Hrange as [Hlo _].
    exact (pf_le_trans (of_int 0) lo _ Hmin Hlo).
  - unfold filter_by_price_range.
    induction catalog as [| opp rest IH]; [reflexivity |].
    simpl. destruct (in_price_range price_range opp) eqn:E; [| exact IH].
    simpl. rewrite E. now rewrite IH.
Qed.

(** The four documented buckets cover every price from 0 up, infinity
    included: an entry priced at least 0 passes the filter of at least one
    of them. *)
Theorem price_buckets_cover_nonneg_prices (opp : Scan.t) :
  pf_le (of_int 0) (Scan.price opp) = true ->
  existsb (fun price_range => in_price_range price_range opp) valid_price_ranges
  = true.
Proof.
  intros Hpos. unfold valid_price_ranges, in_price_range. simpl.
  destruct (Scan.price opp) as [q | | |]; simpl in *; try discriminate;
    [| reflexivity].
  rewrite Hpos. simpl.
  destruct (Qlt_le_dec 100 q) as [H100 | H100].
  - assert (E1 : Qle_bool (inject_Z 100) q = true)
      by (apply Qle_bool_iff; now apply Qlt_le_weak).
    rewrite E1. simpl.
    destruct (Qlt_le_dec 500 q) as [H500 | H500].
    + assert (E2 : Qle_bool (inject_Z 500) q = true)
        by (apply Qle_bool_iff; now apply Qlt_le_weak).
      rewrite E2. simpl.
      destruct (Qlt_le_dec 1000 q) as [H1000 | H1000].
      * assert (E3 : Qle_bool (inject_Z 1000) q = true)
          by (apply Qle_bool_iff; now apply Qlt_le_weak).
        rewrite E3. now rewrite !orb_true_r.
      * apply Qle_bool_iff in H1000.
        change (Qle_bool q (inject_Z 1000) = true) in H1000.
        rewrite H1000. now rewrite !orb_true_r.
    + apply Qle_bool_iff in H500.
      change (Qle_bool q (inject_Z 500) = true) in H500.
      rewrite H500. now rewrite !orb_true_r.
  - apply Qle_bool_iff in H100.
    change (Qle_bool q (inject_Z 100) = true) in H100.
    now rewrite H100.
Qed.

Lemma price_buckets_cover_nonneg_prices_witness :
  existsb
    (fun price_range =>
       in_price_range price_range
         (Scan.mk "The Brothers War Set Booster Box" (Fin 145.00) (Fin 8.7)
            "$145.00 (8.7% ROI)" None))
    valid_price_ranges
  = true.
Proof.
  apply (price_buckets_cover_nonneg_prices
           (Scan.mk "The Brothers War Set Booster Box" (Fin 145.00) (Fin 8.7)
              "$145.00 (8.7% ROI)" None)).
  reflexivity.
Defined.

(** ** Investment analysis: horizons *)

Ltac case_horizon h :=
  unfold analyze_investment_potential, analyze_investment_potential_body, get_default;
  cbv zeta; cbn [assoc];
  destruct (String.eqb h "short") eqn:?;
  [| destruct (String.eqb h "medium") eqn:?;
     [| destruct (String.eqb h "long") eqn:?]].

(** A horizon other than "short" and "long", known or not, is analysed as
    "medium": the multiplier 1.0 applies, the targets are 94.50 and 102.00,
    and the upside is that of "medium"; the horizon is echoed as given. *)
Theorem analyze_investment_potential_unknown_horizon_is_medium
    (product_name investment_horizon : string) :
  String.eqb investment_horizon "short" = false ->
  String.eqb investment_horizon "long" = false ->
  float_field_is ["analysis"; "target_price_6m"]
    (analyze_investment_potential product_name investment_horizon) (Fin 94.50)
  = true
  /\ float_field_is ["analysis"; "target_price_1y"]
       (analyze_investment_potential product_name investment_horizon) (Fin 102.00)
     = true
  /\ float_at ["potential_upside_pct"]
       (analyze_investment_potential product_name investment_horizon)
     = float_at ["potential_upside_pct"]
         (analyze_investment_potential product_name "medium")
  /\ value_at ["analysis"; "investment_horizon"]
       (analyze_investment_potential product_name investment_horizon)
     = Some (VStr investment_horizon).
Proof.
  intros Hshort Hlong. case_horizon investment_horizon; try congruence;
    repeat split.
Qed.

Lemma analyze_investment_potential_unknown_horizon_is_medium_witness :
  float_field_is ["analysis"; "target_price_6m"]
    (analyze_investment_potential dominaria "weekly") (Fin 94.50)
  = true
  /\ float_field_is ["analysis"; "target_price_1y"]
       (analyze_investment_potential dominaria "weekly") (Fin 102.00)
     = true
  /\ float_at ["potential_upside_pct"]
       (analyze_investment_potential dominaria "weekly")
     = float_at ["potential_upside_pct"]
         (analyze_investment_potential dominaria "medium")
  /\ value_at ["analysis"; "investment_horizon"]
       (analyze_investment_potential dominaria "weekly")
     = Some (VStr "weekly").
Proof.
  apply (analyze_investment_potential_unknown_horizon_is_medium dominaria "weekly");
    reflexivity.
Defined.

(** For every input the analysis recommends buying and gives the same three
    strategy tips, while the potential upside is negative exactly for the
    "short" horizon, whose one-year target (51.00) is below the current
    average price. *)
Theorem analyze_investment_potential_upside_sign
    (product_name investment_horizon : string) :
  exists upside,
    float_at ["potential_upside_pct"]
      (analyze_investment_potential product_name investment_horizon)
    = Some upside
    /\ pf_lt upside (of_int 0) = String.eqb investment_horizon "short"
    /\ pf_gt upside (of_int 0) = negb (String.eqb investment_horizon "short")
    /\ value_at ["analysis"; "recommendation"]
         (analyze_investment_potential product_name investment_horizon)
       = Some (VStr "Buy - Good investment opportunity with solid fundamentals")
    /\ list_at ["strategy_tips"]
         (analyze_investment_potential product_name investment_horizon)
       = Some fixed_strategy_tips.
Proof.
  case_horizon investment_horizon; eexists; repeat split.
Qed.

(** ** Tools that cannot fail *)

(** [track_product_prices], [analyze_investment_potential], [market_scanner]
    and [get_portfolio_summary] return [success] true and no [error] for
    every input; of the five tools only [find_arbitrage_opportunities] has a
    reachable failure. *)
Theorem tools_without_failure
    (product_name update_frequency investment_horizon : string)
    (scan_type price_range time_period : string) :
  (success_of (track_product_prices product_name update_frequency) = Some true
   /\ dict_get "error" (track_product_prices product_name update_frequency) = None)
  /\ (success_of (analyze_investment_potential product_name investment_horizon)
      = Some true
      /\ dict_get "error" (analyze_investment_potential product_name investment_horizon)
         = None)
  /\ (success_of (market_scanner scan_type price_range time_period) = Some true
      /\ dict_get "error" (market_scanner scan_type price_range time_period) = None)
  /\ (success_of get_portfolio_summary = Some true
      /\ dict_get "error" get_portfolio_summary = None).
Proof.
  split; [| split; [| split]]; try (split; reflexivity).
  case_horizon investment_horizon; split; reflexivity.
Qed.

(** ** Portfolio summary: empty and inconsistent portfolios, performers *)

Lemma pf_le_refl (x : pyfloat) : is_nan x = false -> pf_le x x = true.
Proof.
  destruct x; simpl; try reflexivity; try discriminate.
  intros _. apply Qle_bool_iff, Qle_refl.
Qed.

Lemma pf_lt_le (x y : pyfloat) : pf_lt x y = true -> pf_le x y = true.
Proof.
  destruct x as [a | | |], y as [b | | |]; simpl; try discriminate; try reflexivity.
  intros H. apply negb_true_iff in H. apply Qle_bool_iff.
  destruct (Qlt_le_dec a b) as [Hlt | Hle]; [now apply Qlt_le_weak |].
  apply Qle_bool_iff in Hle. congruence.
Qed.

Lemma pf_not_lt_le (x y : pyfloat) :
  is_nan x = false -> is_nan y = false -> pf_lt x y = false -> pf_le y x = true.
Proof.
  destruct x as [a | | |], y as [b | | |]; simpl; try discriminate; try reflexivity.
  intros _ _ H. now apply negb_false_iff in H.
Qed.

Section Extremes.
Variable A : Type.
Variable key : A -> pyfloat.

Let keep_max (best item : A) : A :=
  if pf_gt (key item) (key best) then item else best.
Let keep_min (best item : A) : A :=
  if pf_lt (key item) (key best) then item else best.
Let no_nan (xs : list A) : Prop :=
  forall a, In a xs -> is_nan (key a) = false.

Lemma fold_max_in (rest : list A) (x : A) :
  In (fold_left keep_max rest x) (x :: rest).
Proof.
  revert x. induction rest as [| a rest IH]; intros x; [now left |].
  simpl fold_left. specialize (IH (keep_max x a)).
  destruct IH as [E | Hin]; [| now right; right].
  rewrite <- E. unfold keep_max. destruct (pf_gt (key a) (key x)); simpl; auto.
Qed.

Lemma fold_min_in (rest : list A) (x : A) :
  In (fold_left keep_min rest x) (x :: rest).
Proof.
  revert x. induction rest as [| a rest IH]; intros x; [now left |].
  simpl fold_left. specialize (IH (keep_min x a)).
  destruct IH as [E | Hin]; [| now right; right].
  rewrite <- E. unfold keep_min. destruct (pf_lt (key a) (key x)); simpl; auto.
Qed.

Lemma no_nan_step (keep : A -> A -> A) (x a : A) (rest : list A) :
  (keep x a = x \/ keep x a = a) ->
  no_nan (x :: a :: rest) -> no_nan (keep x a :: rest).
Proof.
  intros Hkeep Hall b [<- | Hin].
  - destruct Hkeep as [-> | ->]; apply Hall; simpl; auto.
  - apply Hall. simpl; auto.
Qed.

Lemma keep_max_cases (x a : A) : keep_max x a = x \/ keep_max x a = a.
Proof. unfold keep_max. destruct (pf_gt (key a) (key x)); auto. Qed.

Lemma keep_min_cases (x a : A) : keep_min x a = x \/ keep_min x a = a.
Proof. unfold keep_min. destruct (pf_lt (key a) (key x)); auto. Qed.

Lemma fold_max_upper (rest : list A) (x : A) :
  no_nan (x :: rest) ->
  forall h, In h (x :: rest) ->
            pf_le (key h) (key (fold_left keep_max rest x)) = true.
Proof.
  revert x. induction rest as [| a rest IH]; intros x Hall h Hin.
  - destruct Hin as [<- | []]. apply pf_le_refl, Hall. now left.
  - simpl fold_left.
    assert (Hnx : is_nan (key x) = false) by (apply Hall; simpl; auto).
    assert (Hna : is_nan (key a) = false) by (apply Hall; simpl; auto).
    pose proof (no_nan_step keep_max x a rest (keep_max_cases x a) Hall) as Hall'.
    assert (Hx : pf_le (key x) (key (keep_max x a)) = true
                 /\ pf_le (key a) (key (keep_max x a)) = true).
    { unfold keep_max, pf_gt. destruct (pf_lt (key x) (key a)) eqn:E.
      - split; [now apply pf_lt_le | now apply pf_le_refl].
      - split; [now apply pf_le_refl | now apply pf_not_lt_le]. }
    destruct Hx as [Hx Ha].
    destruct Hin as [<- | [<- | Hin]].
    + eapply pf_le_trans; [exact Hx | apply IH; [exact Hall' | now left]].
    + eapply pf_le_trans; [exact Ha | apply IH; [exact Hall' | now left]].
    + apply IH; [exact Hall' | now right].
Qed.

Lemma fold_min_lower (rest : list A) (x : A) :
  no_nan (x :: rest) ->
  forall h, In h (x :: rest) ->
            pf_le (key (fold_left keep_min rest x)) (key h) = true.
Proof.
  revert x. induction rest as [| a rest IH]; intros x Hall h Hin.
  - destruct Hin as [<- | []]. apply pf_le_refl, Hall. now left.
  - simpl fold_left.
    assert (Hnx : is_nan (key x) = false) by (apply Hall; simpl; auto).
    assert (Hna : is_nan (key a) = false) by (apply Hall; simpl; auto).
    pose proof (no_nan_step keep_min x a rest (keep_min_cases x a) Hall) as Hall'.
    assert (Hx : pf_le (key (keep_min x a)) (key x) = true
                 /\ pf_le (key (keep_min x a)) (key a) = true).
    { unfold keep_min. destruct (pf_lt (key a) (key x)) eqn:E.
      - split; [now apply pf_lt_le | now apply pf_le_refl].
      - split; [now apply pf_le_refl | now apply pf_not_lt_le]. }
    destruct Hx as [Hx Ha].
    destruct Hin as [<- | [<- | Hin]].
    + eapply pf_le_trans; [apply IH; [exact Hall' | now left] | exact Hx].
    + eapply pf_le_trans; [apply IH; [exact Hall' | now left] | exact Ha].
    + apply IH; [exact Hall' | now right].
Qed.
End Extremes.

(** A portfolio that counts active positions but lists no holding makes
    [max()] raise [ValueError]; the tool returns a failure result made of
    [success] false and the message under [error]. *)
Theorem summarize_portfolio_positions_without_holdings (portfolio : Portfolio.t) :
  (0 < Portfolio.active_positions portfolio)%Z ->
  Portfolio.holdings portfolio = [] ->
  (exists msg, portfolio_summary portfolio = Raise (mk_exn ValueError msg))
  /\ success_of (summarize_portfolio portfolio) = Some false
  /\ dict_keys (summarize_portfolio portfolio) = ["success"; "error"].
Proof.
  intros Hpos Hempty. unfold summarize_portfolio, portfolio_summary.
  apply Z.ltb_lt in Hpos. rewrite Hpos, Hempty. simpl.
  repeat split. eexists. reflexivity.
Qed.

Lemma summarize_portfolio_positions_without_holdings_witness :
  success_of
    (summarize_portfolio (Portfolio.mk (Fin 0) (Fin 0) (Fin 0) (Fin 0) 5 120 []))
  = Some false.
Proof.
  apply (summarize_portfolio_positions_without_holdings
           (Portfolio.mk (Fin 0) (Fin 0) (Fin 0) (Fin 0) 5 120 []));
    reflexivity.
Defined.

(** With active positions and at least one holding, none with a NaN
    [pnl_pct], the summary succeeds; its best and worst performers are
    holdings of the portfolio, and every holding's [pnl_pct] lies between
    theirs. *)
Theorem summarize_portfolio_performers (portfolio : Portfolio.t) :
  (0 < Portfolio.active_positions portfolio)%Z ->
  Portfolio.holdings portfolio <> [] ->
  (forall h, In h (Portfolio.holdings portfolio) ->
             is_nan (Holding.pnl_pct h) = false) ->
  exists best worst,
    success_of (summarize_portfolio portfolio) = Some true
    /\ value_at ["performance"; "best_performer"] (summarize_portfolio portfolio)
       = Some (Holding.to_value best)
    /\ value_at ["performance"; "worst_performer"] (summarize_portfolio portfolio)
       = Some (Holding.to_value worst)
    /\ In best (Portfolio.holdings portfolio)
    /\ In worst (Portfolio.holdings portfolio)
    /\ forall h, In h (Portfolio.holdings portfolio) ->
                 pf_le (Holding.pnl_pct worst) (Holding.pnl_pct h) = true
                 /\ pf_le (Holding.pnl_pct h) (Holding.pnl_pct best) = true.
Proof.
  intros Hpos Hne Hnan. unfold summarize_portfolio, portfolio_summary.
  apply Z.ltb_lt in Hpos. rewrite Hpos.
  destruct (Portfolio.holdings portfolio) as [| x rest] eqn:Hh; [congruence |].
  unfold py_max, py_min, py_extreme. cbn [bind try_except].
  do 2 eexists. split; [reflexivity |]. split; [reflexivity |].
  split; [reflexivity |].
  split; [apply fold_max_in |]. split; [apply fold_min_in |].
  intros h Hin. split.
  - now apply (fold_min_lower _ Holding.pnl_pct rest x).
  - now apply (fold_max_upper _ Holding.pnl_pct rest x).
Qed.

Lemma summarize_portfolio_performers_witness :
  exists best worst,
    success_of (summarize_portfolio mock_portfolio) = Some true
    /\ value_at ["performance"; "best_performer"] (summarize_portfolio mock_portfolio)
       = Some (Holding.to_value best)
    /\ value_at ["performance"; "worst_performer"] (summarize_portfolio mock_portfolio)
       = Some (Holding.to_value worst)
    /\ In best (Portfolio.holdings mock_portfolio)
    /\ In worst (Portfolio.holdings mock_portfolio)
    /\ forall h, In h (Portfolio.holdings mock_portfolio) ->
                 pf_le (Holding.pnl_pct worst) (Holding.pnl_pct h) = true
                 /\ pf_le (Holding.pnl_pct h) (Holding.pnl_pct best) = true.
Proof.
  apply (summarize_portfolio_performers mock_portfolio).
  - reflexivity.
  - discriminate.
  - intros h [<- | [<- | []]]; reflexivity.
Defined.
